(** * burnett/spectral_clustering.py: a shallow embedding

    The Python module defines one class, [ProteinStuctureEmbeddings], whose
    methods read per-species identifier tables, build a protein-by-protein
    similarity matrix from pairwise alignment scores, call scikit-learn's
    spectral clustering and embedding, and slice the result per species.

    Conventions of the embedding:
    - a Python [str] is a [string] of UTF-8 bytes (byte-wise lexicographic
      order is code-point order); case conversion is modelled on ASCII;
    - a [float64] is a [spec_float] of the standard library, [S754_nan]
      standing for NaN, which pandas also uses for a missing cell;
    - a Python [int] is a [Z];
    - a [dict] is a [gmap]; a pandas frame is a record of labels and rows;
    - a raised exception is [Raise e], with the exception's class name;
    - a method is a function from the object's state to a result and the
      state it leaves behind (the state survives a raised exception);
    - the names a method reads from the module's global scope are looked up
      in an explicit environment of globals;
    - what the installed pandas and scikit-learn decide, and the code
      leaves to them, is a parameter of the embedding ([Pandas],
      [Sklearn]): the statements hold for every version they cover;
    - the files the program reads, and the paths it cannot write to, are
      an explicit environment ([files]). *)

From stdpp Require Import base option list sorting strings gmap.
From Stdlib Require Import Ascii ZArith Lia.
From Stdlib Require Import Floats.SpecFloat.

Local Open Scope string_scope.
Local Open Scope Z_scope.

(** ** Exceptions and results *)

Record exn := Exn { exn_class : string; exn_detail : string }.

Inductive result (A : Type) : Type :=
| Ok (a : A)
| Raise (e : exn).
Arguments Ok {A} a.
Arguments Raise {A} e.

Definition NameError (name : string) : exn := Exn "NameError" name.
Definition KeyError (key : string) : exn := Exn "KeyError" key.
Definition TypeError (what : string) : exn := Exn "TypeError" what.
Definition ValueError (what : string) : exn := Exn "ValueError" what.
Definition IndexError (what : string) : exn := Exn "IndexError" what.
Definition FileNotFoundError (path : string) : exn := Exn "FileNotFoundError" path.
Definition AttributeError (what : string) : exn := Exn "AttributeError" what.

#[global] Instance exn_eq_dec : EqDecision exn.
Proof. solve_decision. Defined.

#[global] Instance result_ret : MRet result := fun A a => Ok a.
#[global] Instance result_bind : MBind result := fun A B f r =>
  match r with
  | Ok a => f a
  | Raise e => Raise e
  end.

(** ** float64 values *)

Abbreviation float := spec_float.

#[global] Instance float_eq_dec : EqDecision float.
Proof. solve_decision. Defined.

Definition isna (x : float) : bool :=
  match x with S754_nan => true | _ => false end.

(** The binary64 values of the decimal literals used below. *)
Definition f1_0 : float := S754_finite false 4503599627370496 (-52).
Definition f0_9 : float := S754_finite false 8106479329266893 (-53).
Definition f0_8 : float := S754_finite false 7205759403792794 (-53).
Definition f0_6 : float := S754_finite false 5404319552844595 (-53).
Definition f0_5 : float := S754_finite false 4503599627370496 (-53).
Definition f0_4 : float := S754_finite false 7205759403792794 (-54).

(** [DataFrame.min(axis=1)] over the two columns [TM1], [TM2] of one row:
    NaN cells are skipped ([skipna=True]), and the result is NaN only when
    both are NaN.  Between two numbers the smaller one is returned; of two
    numbers that compare equal the first is kept (they can differ only in
    the sign of a zero). *)
Definition row_min (a b : float) : float :=
  match a, b with
  | S754_nan, _ => b
  | _, S754_nan => a
  | _, _ => if SFltb b a then b else a
  end.

(** ** Strings *)

(** [s.split(sep)] for a one-character separator: never empty. *)
Fixpoint py_split (sep : Ascii.ascii) (s : string) : list string :=
  match s with
  | EmptyString => [EmptyString]
  | String c s' =>
      if Ascii.eqb c sep then EmptyString :: py_split sep s'
      else match py_split sep s' with
           | t :: ts => String c t :: ts
           | [] => [String c EmptyString]
           end
  end.

Definition first_field (sep : Ascii.ascii) (s : string) : string :=
  match py_split sep s with
  | t :: _ => t
  | [] => EmptyString
  end.

(** [col.str.split(sep, expand=True)[0]]: the first field of every cell.
    On a column without rows the expanded frame has no column at all and
    selecting column [0] raises [KeyError]. *)
Definition split_expand_0 (sep : Ascii.ascii) (col : list string) : result (list string) :=
  match col with
  | [] => Raise (KeyError "0")
  | _ => Ok (first_field sep <$> col)
  end.

(** [sorted(set(l))]: the sorted labels of a pandas index built by
    [pivot] or by the union of two indexes. *)
Fixpoint insert_label (x : string) (l : list string) : list string :=
  match l with
  | [] => [x]
  | y :: l' =>
      match String.compare x y with
      | Lt => x :: l
      | Eq => l
      | Gt => y :: insert_label x l'
      end
  end.

Definition sorted_unique (l : list string) : list string :=
  foldr insert_label [] l.

(** The order in which the union of two lists of labels is arranged:
    sorted by code point, or the labels of the left operand as they stand,
    followed by the labels that only the right operand has. *)
Inductive label_order :=
| sorted_labels
| left_labels_first.

Definition union_labels (o : label_order) (a b : list string) : list string :=
  match o with
  | sorted_labels => sorted_unique (a ++ b)
  | left_labels_first => a ++ list_difference b a
  end.

(** Python's [sorted(l)]: stable, duplicates kept. *)
Fixpoint insert_sorted (x : string) (l : list string) : list string :=
  match l with
  | [] => [x]
  | y :: l' => if String.leb x y then x :: l else y :: insert_sorted x l'
  end.

Definition sorted (l : list string) : list string :=
  foldr insert_sorted [] l.

(** ** pandas *)

(** What the installed pandas decides.  The repository pins no version,
    and the versions differ where the code does not say what it wants. *)
Class Pandas := {
  (** The row labels and the column labels of [a.combine_first(b)]: the
      union of the labels of [a] and [b] on each axis.  pandas 2 sorts
      both; pandas 3 keeps the column labels of [a] first, and the joining
      of the row labels is left to the version as well. *)
  combine_first_index : label_order;
  combine_first_columns : label_order;
  (** [astype('float64')] on one text of a column of [str]: the number
      it denotes, or nothing where the conversion raises [ValueError]. *)
  str_to_float64 : string -> option float
}.

(** ** Frames *)

(** A frame of float64 cells with string labels on both axes. *)
Record DataFrame := Frame {
  index : list string;
  columns : list string;
  values : list (list float)
}.

Fixpoint index_of (x : string) (l : list string) : option nat :=
  match l with
  | [] => None
  | y :: l' => if decide (x = y) then Some 0%nat else S <$> index_of x l'
  end.

(** [df.loc[i, j]]; [None] when a label is absent (pandas raises). *)
Definition loc (df : DataFrame) (i j : string) : option float :=
  p ← index_of i (index df);
  q ← index_of j (columns df);
  row ← values df !! p;
  row !! q.

(** The cell seen through a reindexing: NaN where the label is absent. *)
Definition cell (df : DataFrame) (i j : string) : float :=
  default S754_nan (loc df i j).

Definition frame_of (idx cols : list string) (f : string -> string -> float) : DataFrame :=
  Frame idx cols ((fun i => f i <$> cols) <$> idx).

(** [df.T] *)
Definition transpose (df : DataFrame) : DataFrame :=
  frame_of (columns df) (index df) (fun i j => cell df j i).

(** [a.combine_first(b)]: the axes are the unions of the labels, in the
    order of the installed pandas; a cell is [a]'s unless that is NaN or
    absent, then [b]'s. *)
Definition combine_first {pandas : Pandas} (a b : DataFrame) : DataFrame :=
  frame_of (union_labels combine_first_index (index a) (index b))
           (union_labels combine_first_columns (columns a) (columns b))
           (fun i j => if isna (cell a i j) then cell b i j else cell a i j).

(** [df.fillna(v)] *)
Definition fillna (v : float) (df : DataFrame) : DataFrame :=
  Frame (index df) (columns df)
        ((fun row : list float => (fun x => if isna x then v else x) <$> row) <$> values df).

(** ** The alignment table *)

(** One record of the alignment file as [read_csv(..., dtype=str)]
    returns it.  A score is the text of its field, or nothing for an empty
    field, which pandas reads as NaN.  Both chains are taken to be named:
    a record with an empty chain field is outside the embedding. *)
Record alignment_record := AlignmentRecord {
  field_PDBchain1 : string;
  field_PDBchain2 : string;
  field_TM1 : option string;
  field_TM2 : option string
}.

(** The frame of line 92: the names of the columns the file has, and its
    records.  The fields of a record stand for the cells of the four
    columns the code reads; where the file lacks one of these columns the
    field is not looked at. *)
Record alignment_table := AlignmentTable {
  alignment_columns : list string;
  alignment_records : list alignment_record
}.

(** One row of the alignment table after the two [astype('float64')]
    conversions of lines 94-95. *)
Record alignment_row := AlignmentRow {
  PDBchain1 : string;
  PDBchain2 : string;
  TM1 : float;
  TM2 : float
}.

(** [df.name]: the column must be there. *)
Definition column_attribute (cols : list string) (name : string) : result () :=
  if decide (name ∈ cols) then Ok ()
  else Raise (AttributeError ("'DataFrame' object has no attribute '" +:+ name +:+ "'")).

(** [df['name']]: the column must be there. *)
Definition column_item (cols : list string) (name : string) : result () :=
  if decide (name ∈ cols) then Ok () else Raise (KeyError name).

(** [df[[..., 'name', ...]]], where the other columns of the list are
    there: [name] must be there too. *)
Definition column_of_list (cols : list string) (name : string) : result () :=
  if decide (name ∈ cols) then Ok ()
  else Raise (KeyError ("['" +:+ name +:+ "'] not in index")).

(** [astype('float64')] on one cell of a column of [str]. *)
Definition astype_float64 {pandas : Pandas} (c : option string) : result float :=
  match c with
  | None => Ok S754_nan
  | Some s =>
      match str_to_float64 s with
      | Some x => Ok x
      | None => Raise (ValueError ("could not convert string to float: '" +:+ s +:+ "'"))
      end
  end.

(** [col.astype('float64')]: cell by cell, the first text that does not
    convert raises. *)
Fixpoint astype_float64_column {pandas : Pandas} (col : list (option string)) : result (list float) :=
  match col with
  | [] => Ok []
  | c :: rest =>
      x ← astype_float64 c;
      xs ← astype_float64_column rest;
      mret (x :: xs)
  end.

(** One row of [df[['PDBchain1', 'PDBchain2', 'small_TM']]]. *)
Record pair_score := PairScore {
  chain1 : string;
  chain2 : string;
  small_TM : float
}.

Definition pair_key (r : pair_score) : string * string := (chain1 r, chain2 r).

(** Lines 93-98: strip the suffix of the second chain, take the smaller of
    the two scores of each row. *)
Definition small_TM_table (df : list alignment_row) : result (list pair_score) :=
  c2 ← split_expand_0 "."%char (PDBchain2 <$> df);
  mret (zip_with (fun r c => PairScore (PDBchain1 r) c (row_min (TM1 r) (TM2 r))) df c2).

Definition lookup_pair (t : list pair_score) (i j : string) : float :=
  match find (fun r => bool_decide (pair_key r = (i, j))) t with
  | Some r => small_TM r
  | None => S754_nan
  end.

(** [df.pivot(index='PDBchain1', columns='PDBchain2', values='small_TM')]:
    a pair of labels that occurs twice raises [ValueError]. *)
Definition pivot (t : list pair_score) : result DataFrame :=
  if bool_decide (NoDup (pair_key <$> t)) then
    Ok (frame_of (sorted_unique (chain1 <$> t)) (sorted_unique (chain2 <$> t))
                 (lookup_pair t))
  else Raise (ValueError "Index contains duplicate entries, cannot reshape").

(** Lines 93-98, as far as the table of line 92 can make them fail, in the
    order of the source: line 93 reads the column [PDBchain2] and splits
    it, which needs a record; lines 94 and 95 read and convert [TM1] and
    [TM2]; line 98 selects [PDBchain1].  The result is the table with its
    scores converted; the split and the minimum themselves are taken in
    [small_TM_table]. *)
Definition converted {pandas : Pandas} (t : alignment_table) : result (list alignment_row) :=
  let records := alignment_records t in
  _ ← column_attribute (alignment_columns t) "PDBchain2";
  _ ← split_expand_0 "."%char (field_PDBchain2 <$> records);
  _ ← column_attribute (alignment_columns t) "TM1";
  tm1 ← astype_float64_column (field_TM1 <$> records);
  _ ← column_attribute (alignment_columns t) "TM2";
  tm2 ← astype_float64_column (field_TM2 <$> records);
  _ ← column_of_list (alignment_columns t) "PDBchain1";
  mret (zip_with (fun r tm => AlignmentRow (field_PDBchain1 r) (field_PDBchain2 r) tm.1 tm.2)
                 records (zip tm1 tm2)).

(** Lines 93-104 of [get_simi_matrix] on a table whose scores are
    converted: the value of the local variable [simi_matrix] when control
    reaches the relabelling step. *)
Definition simi_matrix_of {pandas : Pandas} (df : list alignment_row) : result DataFrame :=
  t ← small_TM_table df;
  m ← pivot t;
  mret (fillna f1_0 (combine_first m (transpose m))).

(** ** Files and paths *)

(** A cell of a column as [read_csv] returns it when it infers the types:
    in a text column the field's text, or NaN for an empty field; in a
    column it reads as integers, floats or booleans, the value, given here
    by what [str] prints for it ([7], [7.0], [True]). *)
Inductive text_cell :=
| Text (s : string)
| Missing
| Number (printed : string).

(** [astype(str)] on a cell. *)
Definition astype_str (c : text_cell) : string :=
  match c with
  | Text s => s
  | Missing => "nan"
  | Number printed => printed
  end.

(** The two columns of a per-species mapping file that the code uses. *)
Record raw_mapping_row := RawMapping {
  raw_pid : text_cell;
  raw_symbol : text_cell
}.

(** The frame of line 62: the names of the columns the file has, and its
    rows.  Where the file lacks [pid] or [symbol] the field of that name
    is not looked at. *)
Record mapping_file := MappingFile {
  mapping_columns : list string;
  mapping_rows : list raw_mapping_row
}.

(** The files of the program, by path: the tables [read_csv] parses, the
    Python sources it loads (what executing one raises, or the names the
    module then defines), and the paths that cannot be written to, each
    with the exception the attempt raises. *)
Record files := Files {
  mapping_files : gmap string mapping_file;
  alignment_files : gmap string alignment_table;
  python_files : gmap string (result (list string));
  write_errors : gmap string exn
}.

(** [pd.read_csv(fn, ...)] *)
Definition read_csv {A} (fs : gmap string A) (fn : string) : result A :=
  match fs !! fn with
  | Some t => Ok t
  | None => Raise (FileNotFoundError fn)
  end.

Fixpoint ends_with_slash (s : string) : bool :=
  match s with
  | EmptyString => false
  | String c EmptyString => Ascii.eqb c "/"
  | String _ s' => ends_with_slash s'
  end.

(** [os.path.join(a, b)] on a POSIX system. *)
Definition path_join (a b : string) : string :=
  match b with
  | String "/" _ => b
  | _ => if bool_decide (a = "") || ends_with_slash a then a +:+ b
         else a +:+ "/" +:+ b
  end.

(** [str.lower()] on ASCII text. *)
Definition lower_char (c : Ascii.ascii) : Ascii.ascii :=
  if Ascii.leb "A" c && Ascii.leb c "Z"
  then Ascii.ascii_of_nat (Ascii.nat_of_ascii c + 32)
  else c.

Fixpoint lower (s : string) : string :=
  match s with
  | EmptyString => EmptyString
  | String c s' => String (lower_char c) (lower s')
  end.

(** ** The identifier table of one species *)

Record mapping_row := MappingRow {
  pid : string;
  symbol : string;
  gene_name : string
}.

(** Lines 61-66 of [read_mapping]: the table it builds from the file.
    The columns are rewritten one after the other, as in the source. *)
Definition load_mapping (fs : files) (map_dir : option string) (species_name : string)
  : result (list mapping_row) :=
  dir ← match map_dir with
        | Some d => Ok d
        | None => Raise (TypeError "expected str, bytes or os.PathLike object, not NoneType")
        end;
  let fn := path_join dir (species_name +:+ "_pid_protein_name.csv") in
  mapping ← read_csv (mapping_files fs) fn;
  let pid0 := (astype_str ∘ raw_pid) <$> mapping_rows mapping in
  let symbol0 := (astype_str ∘ raw_symbol) <$> mapping_rows mapping in
  _ ← column_item (mapping_columns mapping) "symbol";
  gene_name ← split_expand_0 " " symbol0;
  let symbol1 := (fun g => g +:+ "_" +:+ species_name) <$> gene_name in
  _ ← column_item (mapping_columns mapping) "pid";
  let pid1 := lower <$> pid0 in
  mret (zip_with (fun ps g => MappingRow ps.1 ps.2 g) (zip pid1 symbol1) gene_name).

(** ** scikit-learn *)

(** The fitted [SpectralClustering] object, as far as the code reads it. *)
Module SpectralClustering.
(** The stopping tolerance of the eigensolver: ['auto'], the default, or a
    number. *)
Inductive tolerance :=
| auto
| tol (x : float).
Record t := Fitted {
  labels_ : list Z;
  affinity_matrix_ : list (list float);
  n_clusters : Z;
  eigen_solver : option string;
  eigen_tol : tolerance
}.
End SpectralClustering.

(** The library routines the class calls.  They are numerical code outside
    this repository: the methods below are stated over any implementation
    of this interface. *)
Class Sklearn := {
  (** [SpectralClustering(n_clusters=k, affinity='precomputed').fit(X)] *)
  SpectralClustering_fit : Z -> list (list float) -> result SpectralClustering.t;
  (** [spectral_embedding(A, n_components, eigen_solver, random_state,
      eigen_tol, drop_first)] *)
  spectral_embedding :
    list (list float) -> Z -> option string -> Z -> SpectralClustering.tolerance ->
    bool -> result (list (list float));
  (** [silhouette_score(X, labels, metric='precomputed')] *)
  silhouette_score : option DataFrame -> option (list Z) -> result float;
  (** [davies_bouldin_score(X, labels)] *)
  davies_bouldin_score : option DataFrame -> option (list Z) -> result float
}.

(** The number of distinct labels of an assignment. *)
Definition n_labels (ls : list Z) : nat := length (remove_dups ls).

(** scikit-learn's [check_number_of_labels], which [silhouette_score] runs
    before it computes anything: the score is defined for 2 to
    [n_samples - 1] distinct labels. *)
Definition check_number_of_labels (n_labels n_samples : nat) : result () :=
  if (1 <? n_labels)%nat && (n_labels <? n_samples)%nat then Ok ()
  else Raise (ValueError "Number of labels is invalid. Valid values are 2 to n_samples - 1 (inclusive)").

(** The part of the library's contract the evaluator's error path rests
    on: [silhouette_score] rejects an assignment with fewer than two
    distinct labels with a [ValueError], that of [check_number_of_labels]
    unless an earlier check of its input has raised one already. *)
Definition rejects_few_labels (sk : Sklearn) : Prop :=
  forall X ls, (n_labels ls < 2)%nat ->
    exists msg, silhouette_score X (Some ls) = Raise (ValueError msg).



(** ** The object and its methods *)

(** What the program prints and writes. *)
Inductive effect :=
| Out_frame (df : DataFrame)
| Out_score (label : string) (x : float)
| File_csv (path : string) (rows : list (string * Z))
| File_txt (path : string) (rows : list (list float)).

(** The attributes set by [__init__]. *)
Record ProteinStuctureEmbeddings := Object {
  total_gene_names : list string;
  species_gene_index : gmap string (Z * Z);
  species_mapping : gmap string string;
  species_order : list string;
  map_dir : option string;
  pid_mappings : gmap string (list mapping_row);
  alignment_fn : string;
  simi_matrix_fn : string;
  simi_matrix : option DataFrame;
  labels : option (list Z);
  structure_embeddings : option (list (list float));
  protein_cluster : option (list (string * Z))
}.

Definition __init__ (species_order : list string) (alignment_fn : string)
  (map_dir : option string) : ProteinStuctureEmbeddings :=
  {| total_gene_names := [];
     species_gene_index := ∅;
     species_mapping := ∅;
     species_order := species_order;
     map_dir := map_dir;
     pid_mappings := ∅;
     alignment_fn := alignment_fn;
     simi_matrix_fn := "";
     simi_matrix := None;
     labels := None;
     structure_embeddings := None;
     protein_cluster := None |}.

Definition set_total_gene_names v (o : ProteinStuctureEmbeddings) :=
  Object v (species_gene_index o) (species_mapping o) (species_order o)
         (map_dir o) (pid_mappings o) (alignment_fn o) (simi_matrix_fn o)
         (simi_matrix o) (labels o) (structure_embeddings o) (protein_cluster o).
Definition set_species_gene_index v (o : ProteinStuctureEmbeddings) :=
  Object (total_gene_names o) v (species_mapping o) (species_order o)
         (map_dir o) (pid_mappings o) (alignment_fn o) (simi_matrix_fn o)
         (simi_matrix o) (labels o) (structure_embeddings o) (protein_cluster o).
Definition set_pid_mappings v (o : ProteinStuctureEmbeddings) :=
  Object (total_gene_names o) (species_gene_index o) (species_mapping o)
         (species_order o) (map_dir o) v (alignment_fn o) (simi_matrix_fn o)
         (simi_matrix o) (labels o) (structure_embeddings o) (protein_cluster o).
Definition set_simi_matrix v (o : ProteinStuctureEmbeddings) :=
  Object (total_gene_names o) (species_gene_index o) (species_mapping o)
         (species_order o) (map_dir o) (pid_mappings o) (alignment_fn o)
         (simi_matrix_fn o) v (labels o) (structure_embeddings o)
         (protein_cluster o).
Definition set_labels v (o : ProteinStuctureEmbeddings) :=
  Object (total_gene_names o) (species_gene_index o) (species_mapping o)
         (species_order o) (map_dir o) (pid_mappings o) (alignment_fn o)
         (simi_matrix_fn o) (simi_matrix o) v (structure_embeddings o)
         (protein_cluster o).
Definition set_structure_embeddings v (o : ProteinStuctureEmbeddings) :=
  Object (total_gene_names o) (species_gene_index o) (species_mapping o)
         (species_order o) (map_dir o) (pid_mappings o) (alignment_fn o)
         (simi_matrix_fn o) (simi_matrix o) (labels o) v (protein_cluster o).
Definition set_protein_cluster v (o : ProteinStuctureEmbeddings) :=
  Object (total_gene_names o) (species_gene_index o) (species_mapping o)
         (species_order o) (map_dir o) (pid_mappings o) (alignment_fn o)
         (simi_matrix_fn o) (simi_matrix o) (labels o) (structure_embeddings o) v.

(** The state a method runs in: the object and what was printed and
    written so far. *)
Record state := State {
  self : ProteinStuctureEmbeddings;
  trace : list effect
}.

(** A method call: a result, and the state it leaves, also when it raises. *)
Definition M (A : Type) : Type := state -> result A * state.

Definition ret {A} (a : A) : M A := fun st => (Ok a, st).
Definition bind {A B} (c : M A) (k : A -> M B) : M B := fun st =>
  match c st with
  | (Ok a, st') => k a st'
  | (Raise e, st') => (Raise e, st')
  end.
Definition lift {A} (r : result A) : M A := fun st => (r, st).
Definition get_self : M ProteinStuctureEmbeddings := fun st => (Ok (self st), st).
Definition update (f : ProteinStuctureEmbeddings -> ProteinStuctureEmbeddings) : M () :=
  fun st => (Ok (), State (f (self st)) (trace st)).
Definition emit (e : effect) : M () :=
  fun st => (Ok (), State (self st) (trace st ++ [e])).

(** Writing a file: where the path cannot be written to (its directory
    does not exist, say) the attempt raises and nothing is written. *)
Definition write_file (fs : files) (path : string) (e : effect) : M () :=
  match write_errors fs !! path with
  | Some x => lift (Raise x)
  | None => emit e
  end.

Notation "x <~ c ;; k" := (bind c (fun x => k))
  (at level 100, c at next level, right associativity).
Notation "c ;;; k" := (bind c (fun _ => k))
  (at level 100, right associativity).

(** The names the methods read from the module's global scope without
    ever defining them locally. *)
Record globals := Globals {
  g_read_mapping : option (option string -> string -> result (list mapping_row));
  g_species_name : option string;
  g_mapping : option (list mapping_row);
  g_protein_cluster : option (list (string * Z))
}.

(** The module as written binds none of them: [read_mapping] is a method,
    not a module-level function; [species_name] is only a parameter or a
    loop variable of other methods; [mapping] is assigned at module level
    only from a call of the unbound [read_mapping]; [protein_cluster] is
    only an attribute of the object. *)
Definition module_globals : globals := Globals None None None None.

(** Reading a global name. *)
Definition global {A} (name : string) (binding : option A) : result A :=
  match binding with
  | Some v => Ok v
  | None => Raise (NameError name)
  end.

(** Reading an attribute that may still hold [None], to use it as an
    object of a class. *)
Definition not_None {A} (what : string) (v : option A) : result A :=
  match v with
  | Some a => Ok a
  | None => Raise (Exn "AttributeError" what)
  end.

(** [d[k]] on a [dict]. *)
Definition dict_getitem {A} (d : gmap string A) (k : string) : result A :=
  match d !! k with
  | Some v => Ok v
  | None => Raise (KeyError k)
  end.

(** *** [read_mapping] (lines 54-68) *)
Definition read_mapping (fs : files) (species_name : string) : M (list mapping_row) :=
  o <~ get_self ;;
  mapping <~ lift (load_mapping fs (map_dir o) species_name) ;;
  update (fun o => set_pid_mappings (<[species_name := mapping]> (pid_mappings o)) o) ;;;
  ret mapping.

(** *** [get_species_gene_index] (lines 70-83) *)

(** The body of the [for] loop, with the running offset [n]. *)
Fixpoint gene_index_loop (g : globals) (species : list string) (n : Z) : M () :=
  match species with
  | [] => ret ()
  | sp :: rest =>
      read_mapping_fn <~ lift (global "read_mapping" (g_read_mapping g)) ;;
      o <~ get_self ;;
      mapping_df <~ lift (read_mapping_fn (map_dir o) sp) ;;
      let gene_names := gene_name <$> mapping_df in
      update (fun o => set_total_gene_names (total_gene_names o ++ gene_names) o) ;;;
      update (fun o => set_species_gene_index
                         (<[sp := (n, n + Z.of_nat (length gene_names))]>
                            (species_gene_index o)) o) ;;;
      gene_index_loop g rest (n + (n + Z.of_nat (length gene_names)))
  end.

Definition get_species_gene_index (g : globals)
  : M (list string * gmap string (Z * Z)) :=
  o <~ get_self ;;
  let sorted_species_order := sorted (species_order o) in
  gene_index_loop g sorted_species_order 0 ;;;
  o' <~ get_self ;;
  ret (total_gene_names o', species_gene_index o').

(** *** [get_simi_matrix] (lines 85-115) *)

(** [bool(df)] of a frame, as an [if] asks for it: pandas refuses. *)
Definition frame_bool (df : list mapping_row) : result bool :=
  Raise (ValueError "The truth value of a DataFrame is ambiguous").

(** [dict(zip(ks, vs))]: a later pair replaces an earlier one. *)
Definition dict_zip (ks vs : list string) : gmap string string :=
  list_to_map (reverse (zip ks vs)).

(** [df.rename(columns=d, index=d, inplace=True)] *)
Definition rename (d : gmap string string) (df : DataFrame) : DataFrame :=
  Frame ((fun x => default x (d !! x)) <$> index df)
        ((fun x => default x (d !! x)) <$> columns df)
        (values df).

Definition get_simi_matrix {pandas : Pandas} (g : globals) (fs : files) : M DataFrame :=
  o <~ get_self ;;
  df <~ lift (read_csv (alignment_files fs) (alignment_fn o)) ;;
  df <~ lift (converted df) ;;
  simi <~ lift (simi_matrix_of df) ;;
  species_name <~ lift (global "species_name" (g_species_name g)) ;;
  table <~ lift (dict_getitem (pid_mappings o) species_name) ;;
  cond <~ lift (frame_bool table) ;;
  simi' <~ (if cond : bool
            then mapping <~ lift (global "mapping" (g_mapping g)) ;;
                 ret (rename (dict_zip (pid <$> mapping) (symbol <$> mapping)) simi)
            else ret simi) ;;
  update (set_simi_matrix (Some simi')) ;;;
  emit (Out_frame simi') ;;;
  ret simi'.

(** *** [clustering_embedding] (lines 117-147) *)

(** [pd.DataFrame({'symbol': symbols, 'label': labels})] *)
Definition cluster_frame (symbols : list string) (labels : list Z)
  : result (list (string * Z)) :=
  if bool_decide (length symbols = length labels) then Ok (zip symbols labels)
  else Raise (ValueError "All arrays must be of the same length").

Definition clustering_embedding `{Sklearn} (g : globals) (fs : files) (output_dir : string)
  (n_clusters : Z) : M (SpectralClustering.t * list (list float)) :=
  o <~ get_self ;;
  simi <~ lift (not_None "'NoneType' object has no attribute 'index'" (simi_matrix o)) ;;
  let proteins_order := index simi in
  clustering <~ lift (SpectralClustering_fit n_clusters (values simi)) ;;
  let labels := SpectralClustering.labels_ clustering in
  update (set_labels (Some labels)) ;;;
  frame <~ lift (cluster_frame proteins_order labels) ;;
  update (set_protein_cluster (Some frame)) ;;;
  protein_cluster <~ lift (global "protein_cluster" (g_protein_cluster g)) ;;
  write_file fs (path_join output_dir "protein_cluster.csv")
             (File_csv (path_join output_dir "protein_cluster.csv") protein_cluster) ;;;
  maps <~ lift (spectral_embedding
                  (SpectralClustering.affinity_matrix_ clustering)
                  (SpectralClustering.n_clusters clustering)
                  (SpectralClustering.eigen_solver clustering) 0
                  (SpectralClustering.eigen_tol clustering) false) ;;
  write_file fs (path_join output_dir "maps.txt")
             (File_txt (path_join output_dir "maps.txt") maps) ;;;
  update (set_structure_embeddings (Some maps)) ;;;
  ret (clustering, maps).

(** *** [get_species_structure_embeddings] (lines 149-153) *)

(** [l[key]] on a [list] with a [str] for key. *)
Definition list_getitem_str (l : list string) (key : string) : result string :=
  Raise (TypeError "list indices must be integers or slices, not str").

(** [df.isin(values)] with a [str] for values; a list-like is required. *)
Definition isin_str (df : list (string * Z)) (values : string)
  : result (list (bool * bool)) :=
  Raise (TypeError "only list-like or dict-like objects are allowed to be passed to DataFrame.isin(), you passed a 'str'").

(** [df[mask].index]: masking a frame with a frame of booleans blanks
    cells and keeps every row. *)
Definition masked_index (df : list (string * Z)) (mask : list (bool * bool)) : list nat :=
  seq 0 (length df).

(** [a[rows, :]] on a two-dimensional array. *)
Definition take_rows (a : list (list float)) (rows : list nat)
  : result (list (list float)) :=
  foldr (fun p acc =>
           rest ← acc;
           match a !! p with
           | Some row => Ok (row :: rest)
           | None => Raise (IndexError "index is out of bounds for axis 0")
           end) (Ok []) rows.

Definition get_species_structure_embeddings (species_name : string)
  : M (list (list float)) :=
  o <~ get_self ;;
  species_genes <~ lift (list_getitem_str (total_gene_names o) species_name) ;;
  cluster <~ lift (not_None "'NoneType' object has no attribute 'isin'" (protein_cluster o)) ;;
  mask <~ lift (isin_str cluster species_genes) ;;
  let maps_array_index := masked_index cluster mask in
  maps <~ lift (not_None "'NoneType' object is not subscriptable" (structure_embeddings o)) ;;
  species_maps <~ lift (take_rows maps maps_array_index) ;;
  ret species_maps.

(** *** [evaluate] (lines 155-161) *)

Definition evaluate `{Sklearn} : M () :=
  o <~ get_self ;;
  sil_score <~ lift (silhouette_score (simi_matrix o) (labels o)) ;;
  db_index <~ lift (davies_bouldin_score (simi_matrix o) (labels o)) ;;
  emit (Out_score "Silhouette Score: " sil_score) ;;;
  emit (Out_score "Davies-Bouldin Index: " db_index) ;;;
  ret ().

(** *** [parse_input_table] (lines 163-167) *)

(** The table of the file as [read_csv] returns it, as far as the method
    looks at it: the columns [species] and [path], where the file has
    them. *)
Record input_table := InputTable {
  species_column : option (list string);
  path_column : option (list string)
}.

(** [df[df.species == species_name]['path']]: the attribute [species]
    must be a column, the mask selects rows, and [path] must be a column
    of the selection. *)
Definition select_paths (df : input_table) (species_name : string) : result (list string) :=
  species ← match species_column df with
            | Some c => Ok c
            | None => Raise (Exn "AttributeError" "'DataFrame' object has no attribute 'species'")
            end;
  let mask := (fun c => bool_decide (c = species_name)) <$> species in
  paths ← match path_column df with
          | Some c => Ok c
          | None => Raise (KeyError "path")
          end;
  mret (snd <$> filter (fun bp => fst bp = true) (zip mask paths)).

(** The [for] loop: the selection is computed for every species and
    dropped. *)
Fixpoint parse_input_loop (df : input_table) (species : list string) : result () :=
  match species with
  | [] => Ok ()
  | species_name :: rest =>
      adata_fn ← select_paths df species_name;
      parse_input_loop df rest
  end.

Definition parse_input_table (tables : gmap string input_table) (fn : string) : M () :=
  o <~ get_self ;;
  df <~ lift (read_csv tables fn) ;;
  let sorted_species_order := sorted (species_order o) in
  lift (parse_input_loop df sorted_species_order).

(** *** The module level (lines 32-36) *)

Definition saturn_model_path : string :=
  "/home/share/huadjyin/home/fanguangyi/liyao1/tools/SATURN/model/saturn_model.py".

(** [get_module] (lines 18-29): the module of the file at [module_path],
    executed.  [exec_module] raises [FileNotFoundError] where the file is
    not there, and else what executing the file raises; a module is given
    by the names it defines. *)
Definition get_module (fs : files) (module_path module_name : string)
  : result (list string) :=
  match python_files fs !! module_path with
  | Some outcome => outcome
  | None => Raise (FileNotFoundError module_path)
  end.

(** [module.name] *)
Definition module_attribute (module_name : string) (names : list string) (name : string)
  : result () :=
  if decide (name ∈ names) then Ok ()
  else Raise (AttributeError ("module '" +:+ module_name +:+ "' has no attribute '"
                              +:+ name +:+ "'")).

(** What executing the module does before it reaches line 170, the
    imports of lines 6-15 taken to succeed: it loads [saturn_model.py]
    (lines 32-33) and reads the base class of the class statement from it
    (line 36).  The base class is taken to be a class that can be
    subclassed; the methods are all the subclass's own. *)
Definition module_level (fs : files) : result () :=
  saturn_model_module ← get_module fs saturn_model_path "saturn_model";
  module_attribute "saturn_model" saturn_model_module "SATURNPretrainModel".

(** *** The script (lines 170-198) *)

(** The parsed command line: an option that is not given is [None].  The
    model covers the runs in which [-o] is given. *)
Record arguments := Args {
  alignment : option string;
  output : string;
  mapping : option string;
  species : option string
}.

(** The truth value of an option of the command line in a condition. *)
Definition truthy (o : option string) : bool :=
  match o with
  | Some s => negb (bool_decide (s = ""))
  | None => false
  end.

(** The functions the script calls by names the module does not define;
    should one be bound, it is taken to compute a value or raise. *)
Record script_globals := ScriptGlobals {
  s_get_simi_matrix : option (option string -> result DataFrame);
  s_clustering_embedding :
    option (DataFrame -> string -> result (SpectralClustering.t * list (list float)));
  s_evaluate : option (list (list float) -> list Z -> result ())
}.

(** The module as written binds none of them: they are methods. *)
Definition module_script_globals : script_globals := ScriptGlobals None None None.

Definition script_alignment_fn : string :=
  "/home/share/huadjyin/home/fanguangyi/liyao1/01.evo_inter/data/fish_cifs/alignments/alignment.txt".
Definition script_mapping_results_dir : string :=
  "/home/share/huadjyin/home/fanguangyi/liyao1/01.evo_inter/exp/rscb_results".
Definition script_species_order : list string :=
  ["indian_medaka"; "lungfish"; "whitespotted_bambooshark"; "zebrafish";
   "gray_bichir"; "tarpon"].

(** The object [pse] of line 194. *)
Definition script_object : ProteinStuctureEmbeddings :=
  __init__ script_species_order script_alignment_fn (Some script_mapping_results_dir).

(** Lines 180-181: when both options are given and not empty, the
    assignment binds the global name [mapping]. *)
Definition script_mapping (g : globals) (args : arguments) : result globals :=
  match mapping args, species args with
  | Some dir, Some sp =>
      if truthy (Some dir) && truthy (Some sp) then
        read_mapping_fn ← global "read_mapping" (g_read_mapping g);
        table ← read_mapping_fn (Some dir) sp;
        mret (Globals (g_read_mapping g) (g_species_name g) (Some table)
                      (g_protein_cluster g))
      else mret g
  | _, _ => mret g
  end.

(** Running the file as a script: the module level, then lines 170-198. *)
Definition main `{Sklearn} {pandas : Pandas} (g : globals) (sg : script_globals) (fs : files)
  (args : arguments) : M (list (list float)) :=
  lift (module_level fs) ;;;
  let output_dir := output args in
  let fn := alignment args in
  g <~ lift (script_mapping g args) ;;
  get_simi_matrix_fn <~ lift (global "get_simi_matrix" (s_get_simi_matrix sg)) ;;
  simi_matrix <~ lift (get_simi_matrix_fn fn) ;;
  clustering_embedding_fn <~
    lift (global "clustering_embedding" (s_clustering_embedding sg)) ;;
  fitted <~ lift (clustering_embedding_fn simi_matrix output_dir) ;;
  evaluate_fn <~ lift (global "evaluate" (s_evaluate sg)) ;;
  lift (evaluate_fn (snd fitted) (SpectralClustering.labels_ (fst fitted))) ;;;
  update (fun _ => script_object) ;;;
  get_species_gene_index g ;;;
  total_simi_matrix <~ get_simi_matrix g fs ;;
  total_structure_embeddings <~ clustering_embedding g fs output_dir 30 ;;
  species_name <~ lift (global "species_name" (g_species_name g)) ;;
  get_species_structure_embeddings species_name.

(** * The claims' vocabulary *)

(** Lines 93-98 seen row by row. *)
Definition small_TM_row (r : alignment_row) : pair_score :=
  PairScore (PDBchain1 r) (first_field "."%char (PDBchain2 r))
            (row_min (TM1 r) (TM2 r)).

(** The entry of the matrix of line 104 at labels [i], [j], from the
    three-column table: the score of the pair, else the score of the
    reversed pair, else 1. *)
Definition entry (t : list pair_score) (i j : string) : float :=
  let x := if isna (lookup_pair t i j) then lookup_pair t j i
           else lookup_pair t i j in
  if isna x then f1_0 else x.

(** The claim's reading of "the minimum of the two scores", in the spec's
    words: [m] is one of the two scores, it is at most each score that is a
    number, and it is missing only when both scores are. *)
Definition is_minimum_of (a b m : float) : Prop :=
  (m = a \/ m = b) /\
  (isna a = false -> SFleb m a = true) /\
  (isna b = false -> SFleb m b = true) /\
  (isna m = true -> isna a = true /\ isna b = true).

(** A pair of labels is observed when some row of the alignment table
    relates them in that direction (after the suffix of the second chain is
    stripped). *)
Definition observed (df : list alignment_row) (i j : string) : Prop :=
  exists r, r ∈ df /\ PDBchain1 r = i /\ first_field "."%char (PDBchain2 r) = j.

(** The text of a score converts: [astype('float64')] does not raise on
    it.  A missing score converts, to NaN. *)
Definition converts {pandas : Pandas} (c : option string) : bool :=
  match c with
  | Some s => match str_to_float64 s with Some _ => true | None => false end
  | None => true
  end.

(** The pair of chains a record of the alignment file names, the second
    without its suffix. *)
Definition record_key (r : alignment_record) : string * string :=
  (field_PDBchain1 r, first_field "."%char (field_PDBchain2 r)).

(** The order of labels: [String.compare] is a strict total order. *)
Definition label_lt (x y : string) : Prop := String.compare x y = Lt.

(** [tok] is the text of [s] before its first [sep] (all of [s] when it
    has none). *)
Definition is_text_before_first (sep : Ascii.ascii) (s tok : string) : Prop :=
  (sep ∉ String.list_ascii_of_string tok) /\
  (s = tok \/ exists rest, s = tok +:+ String sep rest).

(** The first whitespace-delimited token of a field, as [s.split()[0]]
    gives it: leading white space is skipped and any white space ends the
    token. *)
Definition first_word (s : string) : option string := head (String.words s).

Definition is_upper (c : Ascii.ascii) : bool := Ascii.leb "A" c && Ascii.leb c "Z".

(** [t] is [s] lowercased: no capital letter is left, and every character
    is the one of [s] or, for a capital letter, its small letter. *)
Definition is_lowercased (s t : string) : Prop :=
  Forall (fun c => is_upper c = false) (String.list_ascii_of_string t) /\
  Forall2 (fun a b => if is_upper a
                      then Ascii.nat_of_ascii b = (Ascii.nat_of_ascii a + 32)%nat
                      else b = a)
          (String.list_ascii_of_string s) (String.list_ascii_of_string t).

(** One row of the table [read_mapping] returns, from the row of the file
    it was made of. *)
Definition mapping_row_of (species_name : string) (r : raw_mapping_row) : mapping_row :=
  let g := first_field " " (astype_str (raw_symbol r)) in
  MappingRow (lower (astype_str (raw_pid r))) (g +:+ "_" +:+ species_name) g.

(** Position [k] of the concatenated gene names lies in some species'
    half-open range. *)
Definition covered (ix : gmap string (Z * Z)) (k : Z) : Prop :=
  exists sp a b, ix !! sp = Some (a, b) /\ a <= k < b.

(** The class name of the exception a call raised, if it raised. *)
Definition raised_class {A} (r : result A) : option string :=
  match r with
  | Ok _ => None
  | Raise e => Some (exn_class e)
  end.

(** * Inputs used in examples *)

(** A conversion of texts to numbers for the examples: a plain decimal
    literal of at most 15 digits, read as Python's [float] reads it (the
    digits and the power of ten are binary64 numbers, so their quotient is
    the correctly rounded value).  [float] accepts more: signs, exponents,
    [inf], [nan], white space around the number. *)
Definition digit_value (c : Ascii.ascii) : option Z :=
  let n := Z.of_nat (Ascii.nat_of_ascii c) in
  if (48 <=? n) && (n <=? 57) then Some (n - 48) else None.

Fixpoint digits_value (acc : Z) (s : string) : option Z :=
  match s with
  | EmptyString => Some acc
  | String c s' => d ← digit_value c; digits_value (10 * acc + d) s'
  end.

Definition decimal_float64 (s : string) : option float :=
  match py_split "."%char s with
  | i :: rest =>
      let f := match rest with [f] => Some f | [] => Some "" | _ => None end in
      f ← f;
      if bool_decide (i +:+ f = "") || (15 <? String.length (i +:+ f))%nat then None
      else m ← digits_value 0 (i +:+ f);
           Some (SFdiv 53 1024 (binary_normalize 53 1024 m 0 false)
                       (binary_normalize 53 1024 (10 ^ Z.of_nat (String.length f)) 0 false))
  | [] => None
  end.

(** Two behaviours of [combine_first], with that conversion: both axes
    sorted, and the columns of the left operand first. *)
Definition pandas2 : Pandas :=
  {| combine_first_index := sorted_labels; combine_first_columns := sorted_labels;
     str_to_float64 := decimal_float64 |}.
Definition pandas3 : Pandas :=
  {| combine_first_index := sorted_labels; combine_first_columns := left_labels_first;
     str_to_float64 := decimal_float64 |}.

(** The columns of an alignment file that the code reads. *)
Definition alignment_header : list string := ["PDBchain1"; "PDBchain2"; "TM1"; "TM2"].

(** The columns of a mapping file that the code reads. *)
Definition mapping_header : list string := ["pid"; "symbol"].

(** The scenario of the specification: rows (A,B,0.8,0.9), (B,C,0.5,0.4). *)
Definition scenario_rows : list alignment_row :=
  [AlignmentRow "A" "B" f0_8 f0_9; AlignmentRow "B" "C" f0_5 f0_4].

(** One pair of chains reported in both directions. *)
Definition both_directions_rows : list alignment_row :=
  [AlignmentRow "A" "B" f0_8 f0_9; AlignmentRow "B" "A" f0_5 f0_6].

(** A chain aligned with itself. *)
Definition self_pair_rows : list alignment_row :=
  [AlignmentRow "A" "A" f0_5 f0_5].

(** Three species with one gene each. *)
Definition three_species_files : files :=
  Files (list_to_map
           [("maps/a_pid_protein_name.csv",
             MappingFile mapping_header [RawMapping (Text "1ABC") (Text "ga")]);
            ("maps/b_pid_protein_name.csv",
             MappingFile mapping_header [RawMapping (Text "2DEF") (Text "gb")]);
            ("maps/c_pid_protein_name.csv",
             MappingFile mapping_header [RawMapping (Text "3GHI") (Text "gc")])])
        ∅ ∅ ∅.

(** Two structures of one gene, and a symbol field with a leading space. *)
Definition zebrafish_rows : list raw_mapping_row :=
  [RawMapping (Text "1ABC") (Text "tp53 tumor protein");
   RawMapping (Text "2XYZ") (Text "tp53 tumor protein");
   RawMapping (Text "3LMN") (Text " mdm2 ligase")].

Definition zebrafish_files : files :=
  Files (list_to_map [("maps/zebrafish_pid_protein_name.csv",
                       MappingFile mapping_header zebrafish_rows)]) ∅ ∅ ∅.

(** The scenario as a file: the texts of the scores as they stand in it. *)
Definition scenario_table : alignment_table :=
  AlignmentTable alignment_header
    [AlignmentRecord "A" "B" (Some "0.8") (Some "0.9");
     AlignmentRecord "B" "C" (Some "0.5") (Some "0.4")].

Definition scenario_files : files :=
  Files ∅ (list_to_map [("alignment.txt", scenario_table)]) ∅ ∅.

(** A freshly constructed object. *)
Definition new_object (species_order : list string) : state :=
  State (__init__ species_order "alignment.txt" (Some "maps")) [].

(** The module's globals, had [read_mapping] been a module-level function
    doing what lines 61-66 do. *)
Definition globals_with_reader (fs : files) : globals :=
  Globals (Some (load_mapping fs)) None None None.

(** A 2-by-2 similarity matrix and an object that holds it, with one
    label for both proteins and a one-gene index. *)
Definition two_proteins : DataFrame :=
  Frame ["A"; "B"] ["A"; "B"] [[f1_0; f0_8]; [f0_8; f1_0]].

Definition clustered : state :=
  State (Object ["tp53"] {["zebrafish" := (0, 1)]} ∅ ["zebrafish"] (Some "maps") ∅
                "alignment.txt" "" (Some two_proteins) (Some [0; 0])
                (Some [[f1_0; f0_5]; [f0_5; f1_0]])
                (Some [("tp53_zebrafish", 0); ("mdm2_zebrafish", 0)]))
        [].

(** An object whose similarity matrix was set, and nothing else. *)
Definition matrix_loaded : state :=
  State (set_simi_matrix (Some two_proteins)
           (__init__ ["zebrafish"] "alignment.txt" (Some "maps"))) [].

(** A fitted clustering of two proteins into two clusters. *)
Definition fitted_two : SpectralClustering.t :=
  SpectralClustering.Fitted [0; 1] [[f1_0; f0_8]; [f0_8; f1_0]] 2 None
                            SpectralClustering.auto.

(** The gene index the code computes for three species of one gene each. *)
Definition shifted_index : gmap string (Z * Z) :=
  <["c" := (3, 4)]> (<["b" := (1, 2)]> (<["a" := (0, 1)]> ∅)).

(** An implementation of the library interface whose numerical routines
    are left out: they raise. *)
Definition no_numerics : Sklearn :=
  {| SpectralClustering_fit _ _ := Raise (Exn "NotImplementedError" "fit");
     spectral_embedding _ _ _ _ _ _ := Raise (Exn "NotImplementedError" "spectral_embedding");
     silhouette_score _ _ := Raise (Exn "NotImplementedError" "silhouette_score");
     davies_bouldin_score _ _ := Raise (Exn "NotImplementedError" "davies_bouldin_score") |}.

(** An implementation that runs the library's check of the labels before
    the numerical routines of [numeric]. *)
Definition with_label_check (numeric : Sklearn) : Sklearn :=
  {| SpectralClustering_fit := @SpectralClustering_fit numeric;
     spectral_embedding := @spectral_embedding numeric;
     silhouette_score X ls :=
       match ls with
       | Some l => _ ← check_number_of_labels (n_labels l) (length l);
                   @silhouette_score numeric X ls
       | None => Raise (TypeError "labels is None")
       end;
     davies_bouldin_score X ls :=
       match ls with
       | Some l => _ ← check_number_of_labels (n_labels l) (length l);
                   @davies_bouldin_score numeric X ls
       | None => Raise (TypeError "labels is None")
       end |}.


(** Files none of which is there, with every path writable. *)
Definition no_files : files := Files ∅ ∅ ∅ ∅.

(** The same, but nothing can be written under [out]: the directory does
    not exist. *)
Definition no_output_dir : files :=
  Files ∅ ∅ ∅
    (list_to_map
       [("out/protein_cluster.csv",
         Exn "OSError" "Cannot save file into a non-existent directory: 'out'");
        ("out/maps.txt", FileNotFoundError "out/maps.txt")]).

(** An implementation whose [fit] returns a given fitted object. *)
Definition with_fit (c : SpectralClustering.t) (numeric : Sklearn) : Sklearn :=
  {| SpectralClustering_fit _ _ := Ok c;
     spectral_embedding := @spectral_embedding numeric;
     silhouette_score := @silhouette_score numeric;
     davies_bouldin_score := @davies_bouldin_score numeric |}.

(** 0.0 as a binary64 value. *)
Definition f0_0 : float := S754_zero false.

(** One pair of chains twice, under two file suffixes. *)
Definition suffix_rows : list alignment_row :=
  [AlignmentRow "A" "B.pdb" f0_8 f0_9; AlignmentRow "A" "B.cif" f0_5 f0_4].

(** The ranges the loop of [get_species_gene_index] records for gene
    lists of the given lengths, from the running offset [n] (line 81 for
    the range, line 82 for the next offset). *)
Fixpoint ranges_from (n : Z) (lens : list nat) : list (Z * Z) :=
  match lens with
  | [] => []
  | l :: rest => (n, n + Z.of_nat l) :: ranges_from (n + (n + Z.of_nat l)) rest
  end.

(** The assignments [species_gene_index[species] = range] of the loop, in
    order. *)
Definition record_ranges (ix : gmap string (Z * Z)) (species : list string)
  (ranges : list (Z * Z)) : gmap string (Z * Z) :=
  foldl (fun ix p => <[p.1 := p.2]> ix) ix (zip species ranges).

(** The object after the loop has gone through [species], whose tables
    are [tbls]. *)
Definition after_gene_index (o : ProteinStuctureEmbeddings) (species : list string)
  (tbls : list (list mapping_row)) : ProteinStuctureEmbeddings :=
  set_species_gene_index
    (record_ranges (species_gene_index o) species (ranges_from 0 ((fun tbl : list mapping_row => length tbl) <$> tbls)))
    (set_total_gene_names
       (total_gene_names o ++ concat ((fun tbl : list mapping_row => gene_name <$> tbl) <$> tbls)) o).

(** The tables of the three species of [three_species_files]. *)
Definition three_species_tables : list (list mapping_row) :=
  [[MappingRow "1abc" "ga_a" "ga"]; [MappingRow "2def" "gb_b" "gb"];
   [MappingRow "3ghi" "gc_c" "gc"]].

(** An implementation whose [spectral_embedding] returns a given array. *)
Definition with_embedding (maps : list (list float)) (numeric : Sklearn) : Sklearn :=
  {| SpectralClustering_fit := @SpectralClustering_fit numeric;
     spectral_embedding _ _ _ _ _ _ := Ok maps;
     silhouette_score := @silhouette_score numeric;
     davies_bouldin_score := @davies_bouldin_score numeric |}.

(** The module's globals, had [protein_cluster] been bound to a frame. *)
Definition globals_with_cluster (frame : list (string * Z)) : globals :=
  Globals None None None (Some frame).

(** A table of input files without the column [path]. *)
Definition species_only_tables : gmap string input_table :=
  {["input.csv" := InputTable (Some ["zebrafish"; "tarpon"]) None]}.

(** * Properties of the building blocks *)

Section Floats.

Lemma SFcompare_antisym (a b : float) :
  SFcompare b a = CompOpp <$> SFcompare a b.
Proof.
  destruct a as [sa|sa| |sa ma ea], b as [sb|sb| |sb mb eb]; simpl;
    try reflexivity; try (destruct sa; reflexivity);
    try (destruct sb; reflexivity);
    try (destruct sa, sb; reflexivity).
  destruct sa, sb; simpl; try reflexivity;
    rewrite (Z.compare_antisym ea eb);
    destruct (ea ?= eb)%Z; simpl; try reflexivity;
    repeat f_equal; symmetry; apply (Pos.compare_cont_antisym ma mb Eq).
Qed.

Lemma SFcompare_number (a b : float) :
  isna a = false -> isna b = false -> is_Some (SFcompare a b).
Proof.
  destruct a, b; simpl; intros; try discriminate; eauto.
Qed.

Lemma SFleb_refl (a : float) : isna a = false -> SFleb a a = true.
Proof.
  unfold SFleb. destruct a as [s|s| |s m e]; simpl; try discriminate;
    intros _; try (destruct s; reflexivity).
  destruct s; rewrite Z.compare_refl, Pos.compare_cont_refl; reflexivity.
Qed.

Lemma SFltb_SFleb (a b : float) : SFltb a b = true -> SFleb a b = true.
Proof.
  unfold SFltb, SFleb. destruct (SFcompare a b) as [[]|]; congruence.
Qed.

Lemma SFltb_false_SFleb (a b : float) :
  isna a = false -> isna b = false -> SFltb b a = false -> SFleb a b = true.
Proof.
  intros Ha Hb. unfold SFltb, SFleb. rewrite (SFcompare_antisym a b).
  destruct (SFcompare_number a b Ha Hb) as [c ->]. destruct c; simpl; congruence.
Qed.

Lemma row_min_cases (a b : float) :
  (isna a = true /\ row_min a b = b) \/
  (isna a = false /\ isna b = true /\ row_min a b = a) \/
  (isna a = false /\ isna b = false /\
   row_min a b = if SFltb b a then b else a).
Proof. destruct a, b; simpl; auto 10. Qed.

Lemma row_min_is_minimum (a b : float) : is_minimum_of a b (row_min a b).
Proof.
  unfold is_minimum_of.
  destruct (row_min_cases a b) as [[Ha ->]|[(Ha & Hb & ->)|(Ha & Hb & ->)]].
  - repeat split; auto; try congruence. apply SFleb_refl.
  - repeat split; auto; try congruence. intros _. now apply SFleb_refl.
  - destruct (SFltb b a) eqn:Hlt; repeat split; auto; try congruence; intros _.
    + now apply SFltb_SFleb.
    + now apply SFleb_refl.
    + now apply SFleb_refl.
    + now apply SFltb_false_SFleb.
Qed.

Lemma row_min_isna (a b : float) :
  isna (row_min a b) = isna a && isna b.
Proof. destruct a, b; simpl; try reflexivity; destruct (SFltb _ _); reflexivity. Qed.

End Floats.

Section Labels.

Lemma elem_of_insert_label (x y : string) (l : list string) :
  x ∈ insert_label y l <-> x = y \/ x ∈ l.
Proof.
  induction l as [|z l IH]; simpl.
  - rewrite list_elem_of_singleton, elem_of_nil. tauto.
  - destruct (String.compare y z) eqn:E.
    + apply String.compare_eq_iff in E. subst z.
      rewrite elem_of_cons. tauto.
    + rewrite !elem_of_cons. tauto.
    + rewrite !elem_of_cons, IH. tauto.
Qed.

Lemma elem_of_sorted_unique (x : string) (l : list string) :
  x ∈ sorted_unique l <-> x ∈ l.
Proof.
  unfold sorted_unique. induction l as [|y l IH]; simpl; [tauto|].
  rewrite elem_of_insert_label, IH, elem_of_cons. tauto.
Qed.

Lemma index_of_elem (x : string) (l : list string) :
  x ∈ l -> exists p, index_of x l = Some p /\ l !! p = Some x.
Proof.
  induction l as [|y l IH]; simpl; intros H.
  - now apply elem_of_nil in H.
  - destruct (decide (x = y)) as [->|Hne]; [exists 0%nat; auto|].
    apply elem_of_cons in H as [H|H]; [contradiction|].
    destruct (IH H) as (p & -> & Hp). exists (S p). auto.
Qed.

Lemma index_of_not_elem (x : string) (l : list string) :
  x ∉ l -> index_of x l = None.
Proof.
  induction l as [|y l IH]; simpl; intros H; [reflexivity|].
  apply not_elem_of_cons in H as [Hne H].
  destruct (decide (x = y)); [contradiction|]. now rewrite IH.
Qed.

Lemma label_lt_le (x y : string) : label_lt x y -> String.le x y.
Proof. unfold label_lt, String.le, String.leb. now intros ->. Qed.

Lemma label_lt_irrefl (x : string) : ~ label_lt x x.
Proof.
  unfold label_lt. intros H.
  pose proof (String.compare_antisym x x) as Ha. rewrite H in Ha. discriminate.
Qed.

Lemma label_lt_trans (x y z : string) : label_lt x y -> label_lt y z -> label_lt x z.
Proof.
  intros Hxy Hyz.
  assert (Hle : String.le x z)
    by (transitivity y; now apply label_lt_le).
  unfold label_lt. destruct (String.compare x z) eqn:E.
  - apply String.compare_eq_iff in E. subst z. exfalso.
    assert (x = y)
      by (apply (anti_symm String.le); now apply label_lt_le).
    subst y. now apply label_lt_irrefl in Hxy.
  - reflexivity.
  - unfold String.le, String.leb in Hle. rewrite E in Hle. contradiction.
Qed.

Lemma label_gt_lt (x y : string) : String.compare x y = Gt -> label_lt y x.
Proof.
  intros H. unfold label_lt. rewrite String.compare_antisym, H. reflexivity.
Qed.

Lemma insert_label_sorted (x : string) (l : list string) :
  StronglySorted label_lt l -> StronglySorted label_lt (insert_label x l).
Proof.
  induction 1 as [|y l Hl IH Hy]; simpl; [repeat constructor|].
  destruct (String.compare x y) eqn:E.
  - now constructor.
  - constructor; [now constructor|]. constructor; [exact E|].
    eapply Forall_impl; [exact Hy|]. intros z Hz.
    now apply (label_lt_trans x y z).
  - constructor; [exact IH|]. apply Forall_forall. intros z Hz.
    apply elem_of_insert_label in Hz as [->|Hz]; [now apply label_gt_lt|].
    rewrite Forall_forall in Hy. now apply Hy.
Qed.

Lemma sorted_unique_sorted (l : list string) :
  StronglySorted label_lt (sorted_unique l).
Proof.
  unfold sorted_unique. induction l; simpl; [constructor|].
  now apply insert_label_sorted.
Qed.

(** A strictly sorted list is determined by its elements. *)
Lemma sorted_same_elements (l1 l2 : list string) :
  StronglySorted label_lt l1 -> StronglySorted label_lt l2 ->
  (forall x, x ∈ l1 <-> x ∈ l2) -> l1 = l2.
Proof.
  intros H1. revert l2. induction H1 as [|x l1 Hl1 IH Hx]; intros l2 H2 Hel.
  - destruct l2 as [|y l2]; [reflexivity|].
    exfalso. apply (not_elem_of_nil y). apply Hel. left.
  - destruct H2 as [|y l2 Hl2 Hy].
    + exfalso. apply (not_elem_of_nil x). apply Hel. left.
    + rewrite Forall_forall in Hx, Hy.
      assert (x = y) as <-.
      { assert (Hxin : x ∈ y :: l2) by (apply Hel; left).
        assert (Hyin : y ∈ x :: l1) by (apply Hel; left).
        apply elem_of_cons in Hxin as [?|Hxin]; [assumption|].
        apply elem_of_cons in Hyin as [?|Hyin]; [congruence|].
        exfalso. apply (label_lt_irrefl x).
        apply (label_lt_trans x y x); auto. }
      f_equal. apply IH; [exact Hl2|]. intros z. split; intros Hz.
      * assert (Hin : z ∈ x :: l2) by (apply Hel; now right).
        apply elem_of_cons in Hin as [->|Hin]; [|exact Hin].
        exfalso. apply (label_lt_irrefl x). now apply Hx.
      * assert (Hin : z ∈ x :: l1) by (apply Hel; now right).
        apply elem_of_cons in Hin as [->|Hin]; [|exact Hin].
        exfalso. apply (label_lt_irrefl x). now apply Hy.
Qed.

Lemma sorted_unique_ext (l1 l2 : list string) :
  (forall x, x ∈ l1 <-> x ∈ l2) -> sorted_unique l1 = sorted_unique l2.
Proof.
  intros H. apply sorted_same_elements; try apply sorted_unique_sorted.
  intros x. now rewrite !elem_of_sorted_unique.
Qed.

Lemma sorted_NoDup (l : list string) : StronglySorted label_lt l -> NoDup l.
Proof.
  induction 1 as [|x l Hl IH Hx]; constructor; [|exact IH].
  intros Hin. rewrite Forall_forall in Hx. now apply (label_lt_irrefl x), Hx.
Qed.

Lemma elem_of_union_labels (o : label_order) (a b : list string) (x : string) :
  x ∈ union_labels o a b <-> x ∈ a \/ x ∈ b.
Proof.
  destruct o; cbn [union_labels].
  - now rewrite elem_of_sorted_unique, elem_of_app.
  - rewrite elem_of_app, list_elem_of_difference.
    destruct (decide (x ∈ a)); tauto.
Qed.

Lemma NoDup_union_labels (o : label_order) (a b : list string) :
  NoDup a -> NoDup b -> NoDup (union_labels o a b).
Proof.
  intros Ha Hb. destruct o; cbn [union_labels].
  - apply sorted_NoDup, sorted_unique_sorted.
  - apply NoDup_app. split; [exact Ha|]. split.
    + intros x Hx Hd. apply list_elem_of_difference in Hd. tauto.
    + now apply NoDup_list_difference.
Qed.

End Labels.

Section Frames.

Lemma loc_frame_of idx cols f (i j : string) :
  i ∈ idx -> j ∈ cols -> loc (frame_of idx cols f) i j = Some (f i j).
Proof.
  intros Hi Hj. unfold loc, frame_of; simpl.
  destruct (index_of_elem i idx Hi) as (p & -> & Hp).
  destruct (index_of_elem j cols Hj) as (q & -> & Hq). simpl.
  rewrite list_lookup_fmap, Hp. simpl.
  rewrite list_lookup_fmap, Hq. reflexivity.
Qed.

Lemma loc_frame_of_absent idx cols f (i j : string) :
  i ∉ idx \/ j ∉ cols -> loc (frame_of idx cols f) i j = None.
Proof.
  intros H. unfold loc, frame_of; simpl.
  destruct (decide (i ∈ idx)) as [Hi|Hi].
  - destruct H as [H|H]; [contradiction|].
    rewrite (index_of_not_elem j cols H).
    destruct (index_of i idx); reflexivity.
  - now rewrite (index_of_not_elem i idx Hi).
Qed.

Lemma cell_frame_of idx cols f (i j : string) :
  cell (frame_of idx cols f) i j =
  if decide (i ∈ idx /\ j ∈ cols) then f i j else S754_nan.
Proof.
  unfold cell. destruct (decide (i ∈ idx /\ j ∈ cols)) as [[Hi Hj]|H].
  - now rewrite loc_frame_of.
  - rewrite loc_frame_of_absent; [reflexivity|].
    destruct (decide (i ∈ idx)); [right|left]; tauto.
Qed.

Lemma loc_fillna v df (i j : string) :
  loc (fillna v df) i j = (fun x => if isna x then v else x) <$> loc df i j.
Proof.
  unfold loc, fillna; simpl.
  destruct (index_of i (index df)) as [p|]; [|reflexivity]. simpl.
  destruct (index_of j (columns df)) as [q|]; [|reflexivity]. simpl.
  rewrite list_lookup_fmap. destruct (values df !! p) as [row|]; [|reflexivity].
  simpl. now rewrite list_lookup_fmap.
Qed.

End Frames.

Section Pivot.

Lemma lookup_pair_elem (t : list pair_score) (r : pair_score) :
  NoDup (pair_key <$> t) -> r ∈ t ->
  lookup_pair t (chain1 r) (chain2 r) = small_TM r.
Proof.
  unfold lookup_pair. induction t as [|r0 t IH]; simpl; intros Hnd Hr.
  - now apply elem_of_nil in Hr.
  - apply NoDup_cons in Hnd as [Hfresh Hnd].
    destruct (bool_decide (pair_key r0 = (chain1 r, chain2 r))) eqn:E.
    + apply bool_decide_eq_true in E.
      apply elem_of_cons in Hr as [->|Hr]; [reflexivity|].
      exfalso. apply Hfresh. rewrite E.
      apply (list_elem_of_fmap_2 pair_key) in Hr. exact Hr.
    + apply bool_decide_eq_false in E.
      apply elem_of_cons in Hr as [->|Hr]; [now elim E|]. now apply IH.
Qed.

Lemma lookup_pair_absent (t : list pair_score) (i j : string) :
  (forall r, r ∈ t -> pair_key r <> (i, j)) -> lookup_pair t i j = S754_nan.
Proof.
  unfold lookup_pair. induction t as [|r0 t IH]; simpl; intros H; [reflexivity|].
  rewrite bool_decide_eq_false_2 by (apply H; left).
  apply IH. intros r Hr. apply H. now right.
Qed.

Lemma lookup_pair_number (t : list pair_score) (i j : string) :
  isna (lookup_pair t i j) = false -> i ∈ chain1 <$> t /\ j ∈ chain2 <$> t.
Proof.
  unfold lookup_pair. intros H.
  destruct (find _ t) as [r|] eqn:E; [|discriminate].
  apply find_some in E as [Hr E]. apply bool_decide_eq_true in E.
  apply list_elem_of_In in Hr. injection E as <- <-.
  split; now apply list_elem_of_fmap_2.
Qed.

End Pivot.

(** * The similarity matrix (lines 93-104) *)

Section SimilarityMatrix.

Context {pandas : Pandas}.

(** The three-column table, row by row. *)
Lemma small_TM_table_rows (df : list alignment_row) :
  df <> [] -> small_TM_table df = Ok (small_TM_row <$> df).
Proof.
  intros Hdf. unfold small_TM_table, split_expand_0.
  destruct df as [|r df]; [contradiction|].
  change (PDBchain2 <$> r :: df) with (PDBchain2 r :: (PDBchain2 <$> df)).
  cbn [mbind result_bind mret result_ret].
  change (PDBchain2 r :: (PDBchain2 <$> df)) with (PDBchain2 <$> r :: df).
  f_equal. rewrite <- list_fmap_compose, zip_with_fmap_r, zip_with_diag.
  reflexivity.
Qed.

Lemma small_TM_table_inv (df : list alignment_row) (t : list pair_score) :
  small_TM_table df = Ok t -> df <> [] /\ t = small_TM_row <$> df.
Proof.
  intros H. destruct df as [|r df]; [discriminate|].
  split; [discriminate|].
  rewrite small_TM_table_rows in H by discriminate. now injection H.
Qed.

Lemma pivot_inv (t : list pair_score) (p : DataFrame) :
  pivot t = Ok p ->
  NoDup (pair_key <$> t) /\
  p = frame_of (sorted_unique (chain1 <$> t)) (sorted_unique (chain2 <$> t))
               (lookup_pair t).
Proof.
  unfold pivot. case_bool_decide as Hnd; [|discriminate].
  intros E. injection E as <-. auto.
Qed.

Lemma cell_pivot (t : list pair_score) (i j : string) :
  cell (frame_of (sorted_unique (chain1 <$> t)) (sorted_unique (chain2 <$> t))
                 (lookup_pair t)) i j = lookup_pair t i j.
Proof.
  rewrite cell_frame_of. case_decide as H; [reflexivity|].
  destruct (isna (lookup_pair t i j)) eqn:E.
  - destruct (lookup_pair t i j); try discriminate; reflexivity.
  - exfalso. apply H. rewrite !elem_of_sorted_unique.
    now apply lookup_pair_number.
Qed.

Lemma cell_transpose_pivot (t : list pair_score) (i j : string) :
  cell (transpose
          (frame_of (sorted_unique (chain1 <$> t)) (sorted_unique (chain2 <$> t))
                    (lookup_pair t))) i j = lookup_pair t j i.
Proof.
  unfold transpose. rewrite cell_frame_of. cbn [index columns frame_of].
  rewrite cell_pivot. case_decide as H; [reflexivity|].
  destruct (isna (lookup_pair t j i)) eqn:E.
  - destruct (lookup_pair t j i); try discriminate; reflexivity.
  - exfalso. apply H. rewrite !elem_of_sorted_unique.
    apply lookup_pair_number in E. tauto.
Qed.

(** What lines 93-104 compute, entry by entry. *)
Lemma simi_matrix_of_inv (df : list alignment_row) (m : DataFrame) :
  simi_matrix_of df = Ok m ->
  df <> [] /\ NoDup (pair_key <$> (small_TM_row <$> df)) /\
  (forall x, x ∈ index m <->
             x ∈ chain1 <$> (small_TM_row <$> df) \/
             x ∈ chain2 <$> (small_TM_row <$> df)) /\
  (forall x, x ∈ columns m <->
             x ∈ chain1 <$> (small_TM_row <$> df) \/
             x ∈ chain2 <$> (small_TM_row <$> df)) /\
  (forall i j, i ∈ index m -> j ∈ columns m ->
               loc m i j = Some (entry (small_TM_row <$> df) i j)).
Proof.
  unfold simi_matrix_of. intros H.
  destruct (small_TM_table df) as [t|e] eqn:Et; [|discriminate].
  apply small_TM_table_inv in Et as [Hdf Et]. rewrite <- Et.
  cbn [mbind result_bind] in H.
  destruct (pivot t) as [p|e] eqn:Ep; [|discriminate].
  apply pivot_inv in Ep as [Hnd ->].
  cbn [mbind result_bind mret result_ret] in H. injection H as <-.
  split; [exact Hdf|]. split; [exact Hnd|].
  cbn [index columns fillna combine_first frame_of transpose].
  split; [|split].
  - intros x. rewrite elem_of_union_labels, !elem_of_sorted_unique.
    tauto.
  - intros x. rewrite elem_of_union_labels, !elem_of_sorted_unique.
    tauto.
  - intros i j Hi Hj. rewrite loc_fillna.
    unfold combine_first. rewrite loc_frame_of by assumption.
    rewrite cell_pivot, cell_transpose_pivot. reflexivity.
Qed.

(** The construction succeeds on every table that has a row and no pair
    of labels twice. *)
Lemma simi_matrix_of_ok (df : list alignment_row) :
  df <> [] -> NoDup (pair_key <$> (small_TM_row <$> df)) ->
  exists m, simi_matrix_of df = Ok m.
Proof.
  intros Hdf Hnd. unfold simi_matrix_of.
  rewrite small_TM_table_rows by assumption.
  cbn [mbind result_bind]. unfold pivot.
  rewrite bool_decide_eq_true_2 by assumption.
  cbn [mbind result_bind mret result_ret]. eauto.
Qed.

(** X2. The matrix of line 104 is square.  Neither its row labels nor
    its column labels repeat, the two axes carry the same labels, so
    equally many, it has one row per row label and every row has one cell
    per column.  The order of the labels is the one the installed pandas
    gives [combine_first]: where it sorts the row labels they are sorted;
    where it sorts both axes (pandas 2) the column labels are the list of
    the row labels; where it keeps the left operand's column labels first
    (pandas 3) the labels of the second chains come first, sorted, and the
    remaining labels follow, sorted. *)
Theorem simi_matrix_of_square (df : list alignment_row) (m : DataFrame) :
  simi_matrix_of df = Ok m ->
  NoDup (index m) /\
  NoDup (columns m) /\
  (forall x, x ∈ columns m <-> x ∈ index m) /\
  length (columns m) = length (index m) /\
  (combine_first_index = sorted_labels -> StronglySorted label_lt (index m)) /\
  (combine_first_index = sorted_labels -> combine_first_columns = sorted_labels ->
   columns m = index m) /\
  (combine_first_columns = left_labels_first ->
   columns m = (sorted_unique (chain2 <$> (small_TM_row <$> df))
                ++ list_difference (sorted_unique (chain1 <$> (small_TM_row <$> df)))
                                   (sorted_unique (chain2 <$> (small_TM_row <$> df))))%list) /\
  length (values m) = length (index m) /\
  Forall (fun row => length row = length (columns m)) (values m).
Proof.
  intros Hm.
  destruct (simi_matrix_of_inv df m Hm) as (_ & _ & Hidx & Hcol & _).
  unfold simi_matrix_of in Hm.
  destruct (small_TM_table df) as [t|e] eqn:Et; [|discriminate].
  apply small_TM_table_inv in Et as [_ ->].
  cbn [mbind result_bind] in Hm.
  destruct (pivot _) as [p|e] eqn:Ep; [|discriminate].
  apply pivot_inv in Ep as [_ ->].
  cbn [mbind result_bind mret result_ret] in Hm. injection Hm as <-.
  cbn [index columns values fillna combine_first frame_of transpose] in *.
  set (c1 := sorted_unique (chain1 <$> (small_TM_row <$> df))) in *.
  set (c2 := sorted_unique (chain2 <$> (small_TM_row <$> df))) in *.
  assert (H1 : NoDup c1) by apply sorted_NoDup, sorted_unique_sorted.
  assert (H2 : NoDup c2) by apply sorted_NoDup, sorted_unique_sorted.
  assert (Hni : NoDup (union_labels combine_first_index c1 c2))
    by now apply NoDup_union_labels.
  assert (Hnc : NoDup (union_labels combine_first_columns c2 c1))
    by now apply NoDup_union_labels.
  assert (Hsame : forall x, x ∈ union_labels combine_first_columns c2 c1
                            <-> x ∈ union_labels combine_first_index c1 c2)
    by (intros x; rewrite Hidx, Hcol; tauto).
  split; [exact Hni|]. split; [exact Hnc|]. split; [exact Hsame|].
  split; [|split; [|split; [|split; [|split]]]].
  - now apply Permutation_length, NoDup_Permutation.
  - intros ->. apply sorted_unique_sorted.
  - intros -> ->. cbn [union_labels]. apply sorted_unique_ext.
    intros x. rewrite !elem_of_app. tauto.
  - intros ->. reflexivity.
  - now rewrite !length_fmap.
  - apply Forall_fmap, Forall_fmap, Forall_forall. intros i _.
    cbn. now rewrite !length_fmap.
Qed.

End SimilarityMatrix.

Section SimilarityClaims.

Lemma lookup_pair_of_row (df : list alignment_row) (r : alignment_row) :
  NoDup (pair_key <$> (small_TM_row <$> df)) -> r ∈ df ->
  lookup_pair (small_TM_row <$> df) (PDBchain1 r)
              (first_field "." (PDBchain2 r)) = row_min (TM1 r) (TM2 r).
Proof.
  intros Hnd Hr.
  apply (lookup_pair_elem (small_TM_row <$> df) (small_TM_row r) Hnd).
  now apply list_elem_of_fmap_2.
Qed.

Lemma lookup_pair_unobserved (df : list alignment_row) (i j : string) :
  ~ observed df i j -> lookup_pair (small_TM_row <$> df) i j = S754_nan.
Proof.
  intros Hno. apply lookup_pair_absent. intros r' Hr' Hkey.
  apply list_elem_of_fmap in Hr' as (r & -> & Hr).
  apply Hno. exists r. unfold pair_key in Hkey. simpl in Hkey.
  injection Hkey as H1 H2. auto.
Qed.

Lemma row_labels_in_matrix {pandas : Pandas} (df : list alignment_row) (m : DataFrame)
    (r : alignment_row) :
  simi_matrix_of df = Ok m -> r ∈ df ->
  (PDBchain1 r ∈ index m /\ PDBchain1 r ∈ columns m) /\
  (first_field "." (PDBchain2 r) ∈ index m /\
   first_field "." (PDBchain2 r) ∈ columns m).
Proof.
  intros Hm Hr. apply simi_matrix_of_inv in Hm as (_ & _ & Hidx & Hcol & _).
  assert (H1 : PDBchain1 r ∈ chain1 <$> (small_TM_row <$> df)).
  { apply (list_elem_of_fmap_2 chain1 _ (small_TM_row r)).
    now apply list_elem_of_fmap_2. }
  assert (H2 : first_field "." (PDBchain2 r) ∈ chain2 <$> (small_TM_row <$> df)).
  { apply (list_elem_of_fmap_2 chain2 _ (small_TM_row r)).
    now apply list_elem_of_fmap_2. }
  rewrite !Hidx, !Hcol. tauto.
Qed.

(** X1. Where no pair of labels carries two different scores, one in each
    direction, the matrix of line 104 is symmetric. *)
Lemma simi_matrix_symmetric_without_conflict {pandas : Pandas} (df : list alignment_row)
    (m : DataFrame) :
  simi_matrix_of df = Ok m ->
  (forall i j, isna (lookup_pair (small_TM_row <$> df) i j) = false ->
               isna (lookup_pair (small_TM_row <$> df) j i) = false ->
               lookup_pair (small_TM_row <$> df) i j
               = lookup_pair (small_TM_row <$> df) j i) ->
  forall i j, i ∈ index m -> j ∈ index m -> loc m i j = loc m j i.
Proof.
  intros Hm Hagree i j Hi Hj.
  destruct (simi_matrix_of_inv df m Hm) as (_ & _ & Hidx & Hcol & Hloc).
  assert (Hi' : i ∈ columns m) by (rewrite Hcol, <- Hidx; exact Hi).
  assert (Hj' : j ∈ columns m) by (rewrite Hcol, <- Hidx; exact Hj).
  rewrite (Hloc i j Hi Hj'), (Hloc j i Hj Hi'). f_equal. unfold entry.
  specialize (Hagree i j).
  destruct (isna (lookup_pair (small_TM_row <$> df) i j)) eqn:Eij,
           (isna (lookup_pair (small_TM_row <$> df) j i)) eqn:Eji;
    rewrite ?Eij, ?Eji; try reflexivity.
  now rewrite Hagree.
Qed.

(** C3. The scenario of the specification: from the rows (A,B,0.8,0.9) and
    (B,C,0.5,0.4), with no relabelling, lines 93-104 build a 3-by-3 matrix
    over the labels A, B, C with 0.8 at (A,B) and (B,A), 0.4 at (B,C) and
    (C,B), 1.0 at (A,C) and (C,A), and 1.0 on the diagonal.  This holds
    whatever order the installed pandas gives the labels: the rows are
    labelled A, B, C, and so are the columns where pandas sorts them
    (pandas 2); where it keeps the left operand's first (pandas 3) the
    columns are arranged B, C, A. *)
Theorem scenario_matrix (pandas : Pandas) :
  exists m, simi_matrix_of scenario_rows = Ok m /\
    index m = ["A"; "B"; "C"] /\
    columns m = match combine_first_columns with
                | sorted_labels => ["A"; "B"; "C"]
                | left_labels_first => ["B"; "C"; "A"]
                end /\
    length (values m) = 3%nat /\
    Forall (fun row => length row = 3%nat) (values m) /\
    loc m "A" "B" = Some f0_8 /\ loc m "B" "A" = Some f0_8 /\
    loc m "B" "C" = Some f0_4 /\ loc m "C" "B" = Some f0_4 /\
    loc m "A" "C" = Some f1_0 /\ loc m "C" "A" = Some f1_0 /\
    loc m "A" "A" = Some f1_0 /\ loc m "B" "B" = Some f1_0 /\
    loc m "C" "C" = Some f1_0.
Proof.
  destruct pandas as [[] [] convert]; (eexists; split; [vm_compute; reflexivity|]);
    cbn [index columns values combine_first_columns]; repeat split; repeat constructor.
Qed.

(** C1, at the failing input.  With the pair (A,B) reported in both
    directions, with scores whose minima are 0.8 and 0.5, the matrix of
    line 104 holds 0.8 at (A,B) and 0.5 at (B,A): [combine_first] only fills
    the cells its left operand lacks, so it is not symmetric. *)
Theorem both_directions_asymmetric (pandas : Pandas) :
  exists m, simi_matrix_of both_directions_rows = Ok m /\
    loc m "A" "B" = Some f0_8 /\ loc m "B" "A" = Some f0_5 /\
    loc m "A" "B" <> loc m "B" "A".
Proof.
  destruct pandas as [[] [] convert]; (eexists; split; [vm_compute; reflexivity|]);
    repeat split; discriminate.
Qed.

(** C4. For every row of the alignment table, the score recorded for the
    row's pair of chains is the minimum of the row's TM1 and TM2: it is the
    [small_TM] of the row in the three-column table, and, in every matrix
    that lines 93-104 build (they build one when no pair occurs twice), it
    is the entry at the row's pair when it is a number; the entry at the
    reversed pair too, unless the table reports that pair in a row of its
    own. *)
Theorem recorded_score_is_minimum {pandas : Pandas} (df : list alignment_row)
    (r : alignment_row) :
  r ∈ df ->
  is_minimum_of (TM1 r) (TM2 r) (row_min (TM1 r) (TM2 r)) /\
  (exists t, small_TM_table df = Ok t /\
             PairScore (PDBchain1 r) (first_field "." (PDBchain2 r))
                       (row_min (TM1 r) (TM2 r)) ∈ t) /\
  (NoDup (pair_key <$> (small_TM_row <$> df)) ->
   exists m, simi_matrix_of df = Ok m) /\
  (forall m, simi_matrix_of df = Ok m ->
     (isna (row_min (TM1 r) (TM2 r)) = false ->
      loc m (PDBchain1 r) (first_field "." (PDBchain2 r))
      = Some (row_min (TM1 r) (TM2 r))) /\
     (isna (row_min (TM1 r) (TM2 r)) = false ->
      ~ observed df (first_field "." (PDBchain2 r)) (PDBchain1 r) ->
      loc m (first_field "." (PDBchain2 r)) (PDBchain1 r)
      = Some (row_min (TM1 r) (TM2 r)))).
Proof.
  intros Hr.
  assert (Hdf : df <> []) by (intros ->; now apply elem_of_nil in Hr).
  split; [apply row_min_is_minimum|]. split; [|split].
  - exists (small_TM_row <$> df). split; [now apply small_TM_table_rows|].
    now apply (list_elem_of_fmap_2 small_TM_row).
  - intros Hnd. now apply simi_matrix_of_ok.
  - intros m Hm.
    destruct (row_labels_in_matrix df m r Hm Hr) as [[H1i H1c] [H2i H2c]].
    destruct (simi_matrix_of_inv df m Hm) as (_ & Hnd & _ & _ & Hloc).
    pose proof (lookup_pair_of_row df r Hnd Hr) as Hlk. split.
    + intros Hnum. rewrite (Hloc _ _ H1i H2c). unfold entry.
      rewrite Hlk, Hnum, Hnum. reflexivity.
    + intros Hnum Hrev. rewrite (Hloc _ _ H2i H1c). unfold entry.
      rewrite (lookup_pair_unobserved df _ _ Hrev). cbn [isna].
      rewrite Hlk, Hnum. reflexivity.
Qed.

(** The theorem at the second row of the scenario. *)
Lemma recorded_score_is_minimum_witness :
  exists m, simi_matrix_of (pandas := pandas2) scenario_rows = Ok m /\
    loc m "B" "C" = Some f0_4 /\ loc m "C" "B" = Some f0_4 /\
    is_minimum_of f0_5 f0_4 f0_4.
Proof.
  assert (Hr : AlignmentRow "B" "C" f0_5 f0_4 ∈ scenario_rows)
    by (right; left).
  destruct (recorded_score_is_minimum (pandas := pandas2) scenario_rows
              (AlignmentRow "B" "C" f0_5 f0_4) Hr) as (Hmin & _ & Hok & Hloc).
  destruct Hok as [m Hm].
  { vm_compute. repeat constructor; intros H;
      repeat (apply elem_of_cons in H as [H|H]; [discriminate|]);
      now apply elem_of_nil in H. }
  exists m. split; [exact Hm|].
  destruct (Hloc m Hm) as [Hfw Hbw].
  split; [apply Hfw; reflexivity|]. split; [|exact Hmin].
  apply Hbw; [reflexivity|].
  intros (r & Hin & H1 & H2). unfold scenario_rows in Hin.
  repeat (apply elem_of_cons in Hin as [->|Hin]; [discriminate|]).
  now apply elem_of_nil in Hin.
Defined.

(** C5, as the code has it.  Every entry of the matrix of line 104 whose
    pair of labels no row of the table reports, in either direction, is
    1.0; so is every diagonal entry whose label no row pairs with itself. *)
Theorem unobserved_entry_is_one {pandas : Pandas} (df : list alignment_row) (m : DataFrame) :
  simi_matrix_of df = Ok m ->
  (forall i j, i ∈ index m -> j ∈ columns m ->
               ~ observed df i j -> ~ observed df j i ->
               loc m i j = Some f1_0) /\
  (forall i, i ∈ index m -> ~ observed df i i -> loc m i i = Some f1_0).
Proof.
  intros Hm.
  destruct (simi_matrix_of_inv df m Hm) as (_ & _ & Hidx & Hcol & Hloc).
  assert (Hany : forall i j, i ∈ index m -> j ∈ columns m ->
                             ~ observed df i j -> ~ observed df j i ->
                             loc m i j = Some f1_0).
  { intros i j Hi Hj Hij Hji. rewrite (Hloc i j Hi Hj). unfold entry.
    rewrite (lookup_pair_unobserved df i j Hij). cbn [isna].
    rewrite (lookup_pair_unobserved df j i Hji). reflexivity. }
  split; [exact Hany|].
  intros i Hi Hii. apply Hany; auto. rewrite Hcol, <- Hidx. exact Hi.
Qed.

Lemma unobserved_entry_is_one_witness :
  exists m, simi_matrix_of (pandas := pandas2) scenario_rows = Ok m /\
    loc m "A" "C" = Some f1_0 /\ loc m "B" "B" = Some f1_0.
Proof.
  eexists. split; [vm_compute; reflexivity|].
  match goal with |- context [loc ?m _ _] => set (m0 := m) end.
  assert (Hm : simi_matrix_of (pandas := pandas2) scenario_rows = Ok m0)
    by (vm_compute; reflexivity).
  destruct (unobserved_entry_is_one scenario_rows m0 Hm) as [Hany Hdiag].
  assert (Hno : forall i j, (i, j) ∉ [("A", "B"); ("B", "C")] ->
                            ~ observed scenario_rows i j).
  { intros i j Hij (r & Hin & H1 & H2). apply Hij. unfold scenario_rows in Hin.
    repeat (apply elem_of_cons in Hin as [->|Hin];
            [simpl in H1, H2; subst; repeat constructor|]).
    now apply elem_of_nil in Hin. }
  split.
  - apply Hany; [vm_compute; repeat constructor | vm_compute; repeat constructor | |];
      apply Hno; intros H; repeat (apply elem_of_cons in H as [H|H]; [discriminate|]);
      now apply elem_of_nil in H.
  - apply Hdiag; [vm_compute; repeat constructor|].
    apply Hno; intros H; repeat (apply elem_of_cons in H as [H|H]; [discriminate|]);
      now apply elem_of_nil in H.
Defined.

(** C5, the counterexample.  A row that aligns a chain with itself puts
    its score on the diagonal: the diagonal entry is 0.5, not 1.0, under
    pandas 2 and under pandas 3. *)
Lemma self_pair_diagonal_not_one :
  (exists m, simi_matrix_of (pandas := pandas2) self_pair_rows = Ok m /\
     "A" ∈ index m /\ loc m "A" "A" = Some f0_5 /\ loc m "A" "A" <> Some f1_0) /\
  (exists m, simi_matrix_of (pandas := pandas3) self_pair_rows = Ok m /\
     "A" ∈ index m /\ loc m "A" "A" = Some f0_5 /\ loc m "A" "A" <> Some f1_0).
Proof.
  split; (eexists; split; [vm_compute; reflexivity|]);
    (split; [left|]); (split; [reflexivity|discriminate]).
Qed.

End SimilarityClaims.

Section Mapping.

Lemma append_cons (a : Ascii.ascii) (s t : string) :
  String a s +:+ t = String a (s +:+ t).
Proof. reflexivity. Qed.

Lemma py_split_nonempty (sep : Ascii.ascii) (s : string) : py_split sep s <> [].
Proof.
  destruct s as [|c s]; simpl; [discriminate|].
  destruct (Ascii.eqb c sep); [discriminate|].
  destruct (py_split sep s); discriminate.
Qed.

Lemma first_field_cons (sep c : Ascii.ascii) (s : string) :
  first_field sep (String c s)
  = if Ascii.eqb c sep then EmptyString else String c (first_field sep s).
Proof.
  unfold first_field. simpl. destruct (Ascii.eqb c sep); [reflexivity|].
  destruct (py_split sep s) eqn:E; [|reflexivity].
  now apply py_split_nonempty in E.
Qed.

Lemma first_field_spec (sep : Ascii.ascii) (s : string) :
  is_text_before_first sep s (first_field sep s).
Proof.
  unfold is_text_before_first. induction s as [|c s IH].
  - split; [apply not_elem_of_nil | left; reflexivity].
  - rewrite first_field_cons. destruct (Ascii.eqb c sep) eqn:E.
    + apply Ascii.eqb_eq in E. subst c.
      split; [apply not_elem_of_nil | right; exists s; reflexivity].
    + apply Ascii.eqb_neq in E. destruct IH as [Hno Hs]. split.
      * simpl. apply not_elem_of_cons. split; [congruence | exact Hno].
      * destruct Hs as [Hs | [rest Hs]].
        -- left. congruence.
        -- right. exists rest.
           rewrite append_cons. f_equal. exact Hs.
Qed.

Lemma lower_char_not_upper (c : Ascii.ascii) : is_upper (lower_char c) = false.
Proof. destruct c as [[] [] [] [] [] [] [] []]; reflexivity. Qed.

Lemma lower_char_spec (c : Ascii.ascii) :
  if is_upper c
  then Ascii.nat_of_ascii (lower_char c) = (Ascii.nat_of_ascii c + 32)%nat
  else lower_char c = c.
Proof. destruct c as [[] [] [] [] [] [] [] []]; reflexivity. Qed.

Lemma lower_is_lowercased (s : string) : is_lowercased s (lower s).
Proof.
  unfold is_lowercased. induction s as [|c s [IH1 IH2]]; simpl.
  - split; constructor.
  - split.
    + constructor; [apply lower_char_not_upper | exact IH1].
    + constructor; [apply lower_char_spec | exact IH2].
Qed.

Lemma length_append (s1 s2 : string) :
  String.length (s1 +:+ s2) = (String.length s1 + String.length s2)%nat.
Proof.
  induction s1 as [|a s1 IH]; [reflexivity|].
  rewrite append_cons. simpl. now rewrite IH.
Qed.

Lemma append_inj_r (x s1 s2 : string) : s1 +:+ x = s2 +:+ x -> s1 = s2.
Proof.
  revert s2. induction s1 as [|a s1 IH]; intros [|b s2] H.
  - reflexivity.
  - apply (f_equal String.length) in H. rewrite !length_append in H.
    simpl in H. lia.
  - apply (f_equal String.length) in H. rewrite !length_append in H.
    simpl in H. lia.
  - rewrite !append_cons in H. injection H as -> H. f_equal. now apply IH.
Qed.

Lemma zip3_fmap {A B C D E} (F : B * C -> D -> E) (a : A -> B) (b : A -> C)
    (c : A -> D) (l : list A) :
  zip_with F (zip (a <$> l) (b <$> l)) (c <$> l)
  = (fun x => F (a x, b x) (c x)) <$> l.
Proof.
  induction l as [|x l IH]; [reflexivity|].
  rewrite !fmap_cons. cbn [zip_with]. f_equal. exact IH.
Qed.

(** Lines 61-66, row by row. *)
Lemma column_item_ok (cols : list string) (name : string) :
  name ∈ cols -> column_item cols name = Ok ().
Proof. intros H. unfold column_item. now rewrite decide_True. Qed.

Lemma column_item_missing (cols : list string) (name : string) :
  name ∉ cols -> column_item cols name = Raise (KeyError name).
Proof. intros H. unfold column_item. now rewrite decide_False. Qed.

Lemma load_mapping_rows (fs : files) (dir species : string) (cols : list string)
    (raw : list raw_mapping_row) :
  mapping_files fs !! path_join dir (species +:+ "_pid_protein_name.csv")
  = Some (MappingFile cols raw) ->
  "symbol" ∈ cols -> "pid" ∈ cols -> raw <> [] ->
  load_mapping fs (Some dir) species = Ok (mapping_row_of species <$> raw).
Proof.
  intros Hfile Hs Hp Hraw. unfold load_mapping, read_csv.
  cbn [mbind result_bind]. rewrite Hfile. cbn [mbind result_bind mapping_columns mapping_rows].
  rewrite (column_item_ok cols "symbol" Hs). cbn [mbind result_bind].
  unfold split_expand_0. destruct raw as [|r raw]; [contradiction|].
  set (l := r :: raw).
  change (((astype_str ∘ raw_symbol) <$> l)) with
    ((astype_str ∘ raw_symbol) r :: ((astype_str ∘ raw_symbol) <$> raw)).
  cbn [mbind result_bind mret result_ret].
  change ((astype_str ∘ raw_symbol) r :: ((astype_str ∘ raw_symbol) <$> raw))
    with ((astype_str ∘ raw_symbol) <$> l).
  rewrite (column_item_ok cols "pid" Hp). cbn [mbind result_bind mret result_ret].
  f_equal. rewrite <- !list_fmap_compose. rewrite zip3_fmap. reflexivity.
Qed.

(** What [read_mapping] does on each kind of file. *)
Lemma load_mapping_cases (fs : files) (dir species : string) :
  let fn := path_join dir (species +:+ "_pid_protein_name.csv") in
  load_mapping fs (Some dir) species =
  match mapping_files fs !! fn with
  | None => Raise (FileNotFoundError fn)
  | Some (MappingFile cols raw) =>
      if decide ("symbol" ∈ cols) then
        match raw with
        | [] => Raise (KeyError "0")
        | _ :: _ =>
            if decide ("pid" ∈ cols) then Ok (mapping_row_of species <$> raw)
            else Raise (KeyError "pid")
        end
      else Raise (KeyError "symbol")
  end.
Proof.
  cbn zeta.
  destruct (mapping_files fs !! path_join dir (species +:+ "_pid_protein_name.csv"))
    as [[cols raw]|] eqn:Hfile.
  2:{ unfold load_mapping, read_csv. cbn [mbind result_bind]. now rewrite Hfile. }
  destruct (decide ("symbol" ∈ cols)) as [Hs|Hs].
  2:{ unfold load_mapping, read_csv. cbn [mbind result_bind]. rewrite Hfile.
      cbn [mbind result_bind mapping_columns]. now rewrite (column_item_missing _ _ Hs). }
  destruct raw as [|r raw].
  { unfold load_mapping, read_csv. cbn [mbind result_bind]. rewrite Hfile.
    cbn [mbind result_bind mapping_columns mapping_rows].
    now rewrite (column_item_ok _ _ Hs). }
  destruct (decide ("pid" ∈ cols)) as [Hp|Hp].
  { now apply (load_mapping_rows fs dir species cols). }
  unfold load_mapping, read_csv. cbn [mbind result_bind]. rewrite Hfile.
  cbn [mbind result_bind mapping_columns mapping_rows].
  rewrite (column_item_ok _ _ Hs). cbn [mbind result_bind].
  change (split_expand_0 " " ((astype_str ∘ raw_symbol) <$> r :: raw))
    with (Ok (first_field " " <$> ((astype_str ∘ raw_symbol) <$> r :: raw))).
  cbn [mbind result_bind]. now rewrite (column_item_missing _ _ Hp).
Qed.

Lemma load_mapping_inv (fs : files) (map_dir : option string) (species : string)
    (tbl : list mapping_row) :
  load_mapping fs map_dir species = Ok tbl ->
  exists dir cols raw,
    map_dir = Some dir /\
    mapping_files fs !! path_join dir (species +:+ "_pid_protein_name.csv")
    = Some (MappingFile cols raw) /\
    "symbol" ∈ cols /\ "pid" ∈ cols /\
    raw <> [] /\ tbl = mapping_row_of species <$> raw.
Proof.
  intros H. destruct map_dir as [dir|]; [|discriminate].
  pose proof (load_mapping_cases fs dir species) as Hc. cbn zeta in Hc.
  rewrite H in Hc.
  destruct (mapping_files fs !! path_join dir (species +:+ "_pid_protein_name.csv"))
    as [[cols raw]|] eqn:Hfile; [|discriminate].
  destruct (decide ("symbol" ∈ cols)) as [Hs|]; [|discriminate].
  destruct raw as [|r raw]; [discriminate|].
  destruct (decide ("pid" ∈ cols)) as [Hp|]; [|discriminate].
  injection Hc as ->. exists dir, cols, (r :: raw). repeat split; auto.
Qed.

(** A column of numbers is turned into the texts [str] prints: a [pid]
    column that [read_csv] reads as floats gives [7.0], not the text of
    the field. *)
Lemma load_mapping_numeric_pid :
  load_mapping
    (Files {["maps/x_pid_protein_name.csv" :=
               MappingFile ["pid"; "symbol"] [RawMapping (Number "7.0") (Text "Ga b")]]}
           ∅ ∅ ∅) (Some "maps") "x"
  = Ok [MappingRow "7.0" "Ga_x" "Ga"].
Proof. vm_compute. reflexivity. Qed.

Lemma read_mapping_run (fs : files) (species : string) (st : state) :
  read_mapping fs species st =
  match load_mapping fs (map_dir (self st)) species with
  | Ok tbl => (Ok tbl,
               State (set_pid_mappings (<[species := tbl]> (pid_mappings (self st)))
                                       (self st)) (trace st))
  | Raise e => (Raise e, st)
  end.
Proof.
  unfold read_mapping, bind, get_self, lift, update, ret.
  destruct (load_mapping fs (map_dir (self st)) species); reflexivity.
Qed.

End Mapping.

Section MappingClaims.

Lemma Forall2_fmap_self {A B} (P : A -> B -> Prop) (f : A -> B) (l : list A) :
  (forall x, P x (f x)) -> Forall2 P l (f <$> l).
Proof. intros H. induction l; constructor; auto. Qed.

Lemma symbols_of_gene_names (species : string) (raw : list raw_mapping_row) :
  symbol <$> (mapping_row_of species <$> raw)
  = (fun g => g +:+ "_" +:+ species) <$> (gene_name <$> (mapping_row_of species <$> raw)).
Proof. rewrite <- !list_fmap_compose. reflexivity. Qed.

Lemma symbols_NoDup (species : string) (raw : list raw_mapping_row) :
  NoDup (symbol <$> (mapping_row_of species <$> raw))
  <-> NoDup (gene_name <$> (mapping_row_of species <$> raw)).
Proof.
  rewrite symbols_of_gene_names. apply NoDup_fmap.
  intros g1 g2 H. now apply append_inj_r in H.
Qed.

(** C7, as the code has it.  For a mapping file that has the columns
    [pid] and [symbol] and at least one row, whatever types [read_csv]
    gives its cells, [read_mapping] returns a table with one row per row
    of the file, and
    caches it under the species: the gene name is the text of the symbol
    field before its first space, the symbol is [gene_name_species], the
    pid is the field in lower case, and the symbols are pairwise distinct
    exactly when the gene names are. *)
Theorem read_mapping_table (fs : files) (species dir : string) (st : state)
    (cols : list string) (raw : list raw_mapping_row) :
  map_dir (self st) = Some dir ->
  mapping_files fs !! path_join dir (species +:+ "_pid_protein_name.csv")
  = Some (MappingFile cols raw) ->
  "symbol" ∈ cols -> "pid" ∈ cols ->
  raw <> [] ->
  exists tbl st',
    read_mapping fs species st = (Ok tbl, st') /\
    pid_mappings (self st') !! species = Some tbl /\
    Forall2 (fun r out =>
               is_text_before_first " " (astype_str (raw_symbol r)) (gene_name out) /\
               symbol out = gene_name out +:+ "_" +:+ species /\
               is_lowercased (astype_str (raw_pid r)) (pid out))
            raw tbl /\
    (NoDup (symbol <$> tbl) <-> NoDup (gene_name <$> tbl)).
Proof.
  intros Hdir Hfile Hs Hp Hraw.
  exists (mapping_row_of species <$> raw). eexists. split; [|split; [|split]].
  - rewrite read_mapping_run, Hdir.
    rewrite (load_mapping_rows fs dir species cols raw Hfile Hs Hp Hraw). reflexivity.
  - cbn [self set_pid_mappings pid_mappings]. apply lookup_insert_eq.
  - apply Forall2_fmap_self. intros r. cbn [mapping_row_of gene_name symbol pid].
    split; [apply first_field_spec|]. split; [reflexivity|apply lower_is_lowercased].
  - apply symbols_NoDup.
Qed.

Lemma read_mapping_table_witness :
  exists tbl st',
    read_mapping zebrafish_files "zebrafish" (new_object ["zebrafish"]) = (Ok tbl, st') /\
    pid_mappings (self st') !! "zebrafish" = Some tbl /\
    length tbl = 3%nat.
Proof.
  destruct (read_mapping_table zebrafish_files "zebrafish" "maps"
              (new_object ["zebrafish"]) mapping_header zebrafish_rows)
    as (tbl & st' & Hrun & Hcache & Hrows & _).
  - reflexivity.
  - vm_compute. reflexivity.
  - right; left.
  - left.
  - discriminate.
  - exists tbl, st'. split; [exact Hrun|]. split; [exact Hcache|].
    apply Forall2_length in Hrows. rewrite <- Hrows. reflexivity.
Defined.

(** C7, the counterexample.  Two structures of the gene tp53 give the same
    symbol twice, so the symbols are not unique; and for a symbol field
    that starts with a space the gene name is empty, where the first
    whitespace-delimited token of the field is [mdm2]. *)
Lemma read_mapping_symbols_not_unique :
  exists tbl st',
    read_mapping zebrafish_files "zebrafish" (new_object ["zebrafish"]) = (Ok tbl, st') /\
    symbol <$> tbl = ["tp53_zebrafish"; "tp53_zebrafish"; "_zebrafish"] /\
    ~ NoDup (symbol <$> tbl) /\
    gene_name <$> tbl = ["tp53"; "tp53"; ""] /\
    first_word " mdm2 ligase" = Some "mdm2".
Proof.
  eexists. eexists. split; [vm_compute; reflexivity|].
  split; [reflexivity|]. split; [|split; reflexivity].
  intros H. apply NoDup_cons in H as [H _]. apply H. left.
Qed.

End MappingClaims.

Section MethodClaims.

Lemma sorted_nonempty (l : list string) : l <> [] -> sorted l <> [].
Proof.
  destruct l as [|x l]; [contradiction|]. intros _. unfold sorted. simpl.
  destruct (foldr insert_sorted [] l) as [|y l']; simpl; [discriminate|].
  destruct (String.leb x y); discriminate.
Qed.

(** With the module's globals the loop stops at its first species: the
    name [read_mapping] is unbound. *)
Lemma gene_index_loop_NameError (species : list string) (n : Z) (st : state) :
  species <> [] ->
  gene_index_loop module_globals species n st
  = (Raise (NameError "read_mapping"), st).
Proof. destruct species; [contradiction|reflexivity]. Qed.

(** X5. For every non-empty species order the method raises [NameError]
    for [read_mapping] and leaves the object as it was. *)
Lemma get_species_gene_index_NameError (st : state) :
  species_order (self st) <> [] ->
  get_species_gene_index module_globals st
  = (Raise (NameError "read_mapping"), st).
Proof.
  intros H. unfold get_species_gene_index, bind, get_self.
  rewrite (gene_index_loop_NameError _ 0 st (sorted_nonempty _ H)). reflexivity.
Qed.

(** C2, at the failing input: three species, one gene each.  As written
    the method raises [NameError]; had [read_mapping] been callable as the
    loop calls it, the ranges would be (0,1), (1,2) and (3,4) over three
    gene names: position 2 lies in no range and the last range ends past
    the total, because the offset is advanced by [n + len] where [len] was
    meant. *)
Theorem gene_index_third_range_shifted :
  fst (get_species_gene_index module_globals (new_object ["c"; "a"; "b"]))
  = Raise (NameError "read_mapping") /\
  (exists st',
     get_species_gene_index (globals_with_reader three_species_files)
                            (new_object ["c"; "a"; "b"])
     = (Ok (["ga"; "gb"; "gc"], shifted_index), st')) /\
  shifted_index !! "c" = Some (3, 4) /\
  ~ covered shifted_index 2.
Proof.
  split; [reflexivity|]. split; [eexists; vm_compute; reflexivity|].
  split; [reflexivity|].
  intros (sp & a & b & Hl & Hab). unfold shifted_index in Hl.
  apply lookup_insert_Some in Hl as [[_ E]|[_ Hl]]; [injection E as <- <-; lia|].
  apply lookup_insert_Some in Hl as [[_ E]|[_ Hl]]; [injection E as <- <-; lia|].
  apply lookup_insert_Some in Hl as [[_ E]|[_ Hl]]; [injection E as <- <-; lia|].
  now rewrite lookup_empty in Hl.
Qed.

(** X3. Whatever the globals hold, [get_simi_matrix] returns nothing and
    leaves the object as it was: past the unbound [species_name] stand a
    dictionary lookup and the truth value of a frame, which pandas
    refuses. *)
Lemma get_simi_matrix_never_returns {pandas : Pandas} (g : globals) (fs : files)
    (st : state) :
  exists e, get_simi_matrix g fs st = (Raise e, st).
Proof.
  unfold get_simi_matrix, bind, get_self, lift.
  destruct (read_csv (alignment_files fs) (alignment_fn (self st))) as [tbl|]; [|eauto].
  destruct (converted tbl) as [df|]; [|eauto].
  destruct (simi_matrix_of df) as [m|]; [|eauto].
  destruct (global "species_name" (g_species_name g)) as [sp|]; [|eauto].
  destruct (dict_getitem (pid_mappings (self st)) sp); [|eauto].
  unfold frame_bool. eauto.
Qed.

(** C10. Whenever the alignment file is read, its scores convert and
    lines 93-104 build a matrix, control reaches line 109 and
    [get_simi_matrix] raises
    [NameError] for [species_name]: neither that name nor [mapping] is
    bound in the module's global scope.  The matrix is not returned, and
    [self.simi_matrix] is not assigned. *)
Theorem get_simi_matrix_NameError {pandas : Pandas} (fs : files) (st : state)
    (tbl : alignment_table) (df : list alignment_row) (m : DataFrame) :
  alignment_files fs !! alignment_fn (self st) = Some tbl ->
  converted tbl = Ok df ->
  simi_matrix_of df = Ok m ->
  get_simi_matrix module_globals fs st = (Raise (NameError "species_name"), st) /\
  g_species_name module_globals = None /\
  g_mapping module_globals = None.
Proof.
  intros Hfile Hdf Hm. split; [|split; reflexivity].
  unfold get_simi_matrix, bind, get_self, lift, read_csv.
  rewrite Hfile, Hdf, Hm. reflexivity.
Qed.

Lemma get_simi_matrix_NameError_witness :
  get_simi_matrix (pandas := pandas2) module_globals scenario_files (new_object [])
  = (Raise (NameError "species_name"), new_object []).
Proof.
  assert (Hm : exists m, simi_matrix_of (pandas := pandas2) scenario_rows = Ok m)
    by (eexists; vm_compute; reflexivity).
  destruct Hm as [m Hm].
  apply (get_simi_matrix_NameError scenario_files (new_object []) scenario_table
           scenario_rows m);
    [reflexivity | vm_compute; reflexivity | exact Hm].
Defined.


(** X4. With the module's globals [clustering_embedding] returns nothing,
    whatever the library computes: [protein_cluster] at line 134 is unbound
    (the frame was stored in [self.protein_cluster]), so the embedding of
    lines 137-144 is never computed, no file is written and
    [self.structure_embeddings] keeps its value. *)
Lemma clustering_embedding_never_returns `{Sklearn} (fs : files) (output_dir : string)
    (n_clusters : Z) (st : state) :
  exists e st',
    clustering_embedding module_globals fs output_dir n_clusters st = (Raise e, st') /\
    structure_embeddings (self st') = structure_embeddings (self st) /\
    trace st' = trace st.
Proof.
  unfold clustering_embedding, bind, get_self, lift, update.
  destruct (not_None _ (simi_matrix (self st))) as [m|e]; [|eauto].
  destruct (SpectralClustering_fit n_clusters (values m)) as [c|e]; [|eauto].
  cbn [self trace].
  destruct (cluster_frame (index m) (SpectralClustering.labels_ c)) as [fr|e].
  - cbn [self trace global g_protein_cluster module_globals]. eauto.
  - eauto.
Qed.









(** [evaluate] raises what [silhouette_score] raises, and prints nothing
    then. *)
Lemma evaluate_propagates `{Sklearn} (st : state) (e : exn) :
  silhouette_score (simi_matrix (self st)) (labels (self st)) = Raise e ->
  evaluate st = (Raise e, st).
Proof.
  intros E. unfold evaluate, bind, get_self, lift. now rewrite E.
Qed.

Lemma with_label_check_rejects (numeric : Sklearn) :
  rejects_few_labels (with_label_check numeric).
Proof.
  intros X ls Hn. cbn [silhouette_score with_label_check].
  unfold check_number_of_labels.
  replace (1 <? n_labels ls)%nat with false
    by (symmetry; apply Nat.ltb_ge; lia).
  cbn. eauto.
Qed.

(** C9, as the code has it.  With fewer than two distinct labels the
    evaluator returns no score and prints none: it fails with the
    [ValueError] that scikit-learn's [silhouette_score] raises for such
    labels, which the code passes on unchanged. *)
Theorem evaluate_few_labels (sk : Sklearn) (st : state) (ls : list Z) :
  rejects_few_labels sk ->
  labels (self st) = Some ls -> (n_labels ls < 2)%nat ->
  exists msg,
    evaluate st = (Raise (ValueError msg), st) /\
    raised_class (fst (evaluate st)) = Some "ValueError".
Proof.
  intros Hsk Hls Hn.
  destruct (Hsk (simi_matrix (self st)) ls Hn) as [msg Hmsg].
  exists msg. rewrite <- Hls in Hmsg.
  rewrite (evaluate_propagates st _ Hmsg). split; reflexivity.
Qed.

Lemma evaluate_few_labels_witness :
  exists msg,
    @evaluate (with_label_check no_numerics) clustered
    = (Raise (ValueError msg), clustered).
Proof.
  destruct (evaluate_few_labels (with_label_check no_numerics) clustered [0; 0]
              (with_label_check_rejects no_numerics))
    as (msg & Hrun & _).
  - reflexivity.
  - vm_compute. lia.
  - exists msg. exact Hrun.
Defined.

(** C9, the counterexample.  One label for both proteins: the evaluator
    fails with [ValueError], not with [InsufficientClustersError]. *)
Lemma evaluate_one_label_ValueError :
  labels (self clustered) = Some [0; 0] /\ n_labels [0; 0] = 1%nat /\
  raised_class (fst (@evaluate (with_label_check no_numerics) clustered))
  = Some "ValueError" /\
  raised_class (fst (@evaluate (with_label_check no_numerics) clustered))
  <> Some "InsufficientClustersError".
Proof. repeat split. vm_compute. discriminate. Qed.

End MethodClaims.

Section Examples.

(** The scenario has no pair in both directions: its matrix is symmetric. *)
Lemma simi_matrix_symmetric_without_conflict_witness :
  exists m, simi_matrix_of (pandas := pandas2) scenario_rows = Ok m /\
            loc m "A" "B" = loc m "B" "A".
Proof.
  assert (Hm : exists m, simi_matrix_of (pandas := pandas2) scenario_rows = Ok m)
    by (eexists; vm_compute; reflexivity).
  destruct Hm as [m Hm]. exists m. split; [exact Hm|].
  destruct (simi_matrix_of_inv scenario_rows m Hm) as (_ & _ & Hidx & _).
  apply (simi_matrix_symmetric_without_conflict scenario_rows m Hm).
  - intros i j Hij Hji. exfalso.
    pose proof (lookup_pair_number _ _ _ Hij) as [Hi1 Hj2].
    pose proof (lookup_pair_number _ _ _ Hji) as [Hj1 Hi2].
    cbn in Hi1, Hj2, Hj1, Hi2.
    repeat (apply elem_of_cons in Hi1 as [->|Hi1]);
      try (now apply elem_of_nil in Hi1);
      repeat (apply elem_of_cons in Hi2 as [Hi2|Hi2]);
      try (now apply elem_of_nil in Hi2); try discriminate;
      repeat (apply elem_of_cons in Hj1 as [->|Hj1]);
      try (now apply elem_of_nil in Hj1);
      vm_compute in Hij; discriminate.
  - apply Hidx. left. vm_compute. left.
  - apply Hidx. left. vm_compute. right. left.
Defined.

(** The matrix of the scenario is square; under pandas 3 its columns are
    labelled B, C, A. *)
Lemma simi_matrix_of_square_witness :
  exists m, simi_matrix_of (pandas := pandas3) scenario_rows = Ok m /\
            length (columns m) = length (index m) /\
            columns m = ["B"; "C"; "A"].
Proof.
  assert (Hm : exists m, simi_matrix_of (pandas := pandas3) scenario_rows = Ok m)
    by (eexists; vm_compute; reflexivity).
  destruct Hm as [m Hm]. exists m. split; [exact Hm|].
  destruct (simi_matrix_of_square scenario_rows m Hm)
    as (_ & _ & _ & Hlen & _ & _ & Hleft & _).
  split; [exact Hlen|]. rewrite (Hleft eq_refl). vm_compute. reflexivity.
Defined.

(** Three species: the method raises at the first. *)
Lemma get_species_gene_index_NameError_witness :
  get_species_gene_index module_globals (new_object ["c"; "a"; "b"])
  = (Raise (NameError "read_mapping"), new_object ["c"; "a"; "b"]).
Proof.
  apply (get_species_gene_index_NameError (new_object ["c"; "a"; "b"])).
  discriminate.
Defined.

End Examples.

(** * Further properties of the similarity matrix *)

Section SimilarityMore.

Lemma lookup_pair_found (t : list pair_score) (i j : string) :
  isna (lookup_pair t i j) = false ->
  exists r, r ∈ t /\ pair_key r = (i, j) /\ small_TM r = lookup_pair t i j.
Proof.
  unfold lookup_pair. intros H.
  destruct (find _ t) as [r|] eqn:E; [|discriminate].
  apply find_some in E as [Hr E]. apply bool_decide_eq_true in E.
  apply list_elem_of_In in Hr. eauto.
Qed.

Lemma lookup_pair_row (df : list alignment_row) (i j : string) :
  isna (lookup_pair (small_TM_row <$> df) i j) = false ->
  exists r, r ∈ df /\ PDBchain1 r = i /\ first_field "." (PDBchain2 r) = j /\
            row_min (TM1 r) (TM2 r) = lookup_pair (small_TM_row <$> df) i j.
Proof.
  intros H. destruct (lookup_pair_found _ _ _ H) as (r' & Hr' & Hkey & Hv).
  apply list_elem_of_fmap in Hr' as (r & -> & Hr).
  unfold pair_key in Hkey. cbn in Hkey. injection Hkey as H1 H2.
  exists r. auto.
Qed.

Lemma row_min_one_of (a b : float) :
  isna (row_min a b) = false ->
  (row_min a b = a /\ isna a = false) \/ (row_min a b = b /\ isna b = false).
Proof.
  destruct (row_min_cases a b) as [[Ha E]|[(Ha & Hb & E)|(Ha & Hb & E)]];
    rewrite E; intros H.
  - right. auto.
  - left. auto.
  - destruct (SFltb b a); [right|left]; auto.
Qed.

(** X6. The labels of the matrix of line 104 are exactly the chain
    identifiers of the table: those of the first chain column as they are,
    those of the second with everything from the first dot stripped. *)
Theorem simi_matrix_labels {pandas : Pandas} (df : list alignment_row) (m : DataFrame) :
  simi_matrix_of df = Ok m ->
  forall x, x ∈ index m <->
            exists r, r ∈ df /\
                      (x = PDBchain1 r \/ x = first_field "." (PDBchain2 r)).
Proof.
  intros Hm x.
  destruct (simi_matrix_of_inv df m Hm) as (_ & _ & Hidx & _).
  rewrite Hidx. rewrite <- !list_fmap_compose. rewrite !list_elem_of_fmap.
  split.
  - intros [(r & E & Hr)|(r & E & Hr)]; subst x; exists r; cbn; auto.
  - intros (r & Hr & [E|E]); subst x; [left|right]; exists r; cbn; auto.
Qed.

(** The labels of the scenario: C comes from the second column only. *)
Lemma simi_matrix_labels_witness :
  exists m, simi_matrix_of (pandas := pandas2) scenario_rows = Ok m /\ "C" ∈ index m.
Proof.
  assert (Hm : exists m, simi_matrix_of (pandas := pandas2) scenario_rows = Ok m)
    by (eexists; vm_compute; reflexivity).
  destruct Hm as [m Hm]. exists m. split; [exact Hm|].
  apply (simi_matrix_labels scenario_rows m Hm).
  exists (AlignmentRow "B" "C" f0_5 f0_4). split; [right; left|right; reflexivity].
Defined.

(** Where an entry of the matrix comes from. *)
Lemma entry_source (df : list alignment_row) (i j : string) :
  isna (entry (small_TM_row <$> df) i j) = false /\
  (entry (small_TM_row <$> df) i j = f1_0 \/
   exists r, r ∈ df /\ entry (small_TM_row <$> df) i j = row_min (TM1 r) (TM2 r) /\
     ((PDBchain1 r = i /\ first_field "." (PDBchain2 r) = j) \/
      (PDBchain1 r = j /\ first_field "." (PDBchain2 r) = i))).
Proof.
  unfold entry.
  destruct (isna (lookup_pair (small_TM_row <$> df) i j)) eqn:Eij.
  - destruct (isna (lookup_pair (small_TM_row <$> df) j i)) eqn:Eji.
    + split; [reflexivity|]. left. reflexivity.
    + split; [exact Eji|]. right.
      destruct (lookup_pair_row df j i Eji) as (r & Hr & H1 & H2 & Hv).
      exists r. auto.
  - rewrite Eij. split; [exact Eij|]. right.
    destruct (lookup_pair_row df i j Eij) as (r & Hr & H1 & H2 & Hv).
    exists r. auto.
Qed.

(** X7. No entry of the matrix of line 104 is NaN, and none is invented:
    an entry is 1.0, or it is the smaller score of a row of the table that
    relates its two labels, in one direction or the other. *)
Theorem simi_matrix_entries {pandas : Pandas} (df : list alignment_row) (m : DataFrame) :
  simi_matrix_of df = Ok m ->
  forall i j, i ∈ index m -> j ∈ index m ->
  exists v, loc m i j = Some v /\ isna v = false /\
    (v = f1_0 \/
     exists r, r ∈ df /\ v = row_min (TM1 r) (TM2 r) /\
       ((PDBchain1 r = i /\ first_field "." (PDBchain2 r) = j) \/
        (PDBchain1 r = j /\ first_field "." (PDBchain2 r) = i))).
Proof.
  intros Hm i j Hi Hj.
  destruct (simi_matrix_of_inv df m Hm) as (_ & _ & Hidx & Hcol & Hloc).
  assert (Hj' : j ∈ columns m) by (rewrite Hcol, <- Hidx; exact Hj).
  exists (entry (small_TM_row <$> df) i j).
  split; [exact (Hloc i j Hi Hj')|]. apply entry_source.
Qed.

(** The entry of the scenario at (C,B) is a number. *)
Lemma simi_matrix_entries_witness :
  exists m v, simi_matrix_of (pandas := pandas2) scenario_rows = Ok m /\
              loc m "C" "B" = Some v /\ isna v = false.
Proof.
  assert (Hm : exists m, simi_matrix_of (pandas := pandas2) scenario_rows = Ok m)
    by (eexists; vm_compute; reflexivity).
  destruct Hm as [m Hm].
  destruct (simi_matrix_of_inv scenario_rows m Hm) as (_ & _ & Hidx & _).
  destruct (simi_matrix_entries scenario_rows m Hm "C" "B") as (v & Hv & Hna & _).
  - apply Hidx. right. vm_compute. right. left.
  - apply Hidx. left. vm_compute. right. left.
  - exists m, v. auto.
Defined.

(** X8. Bounds that the scores of the table satisfy hold for the whole
    matrix of line 104: if 1.0 and every score that is a number lie between
    [lo] and [hi], so does every entry. *)
Theorem simi_matrix_bounded {pandas : Pandas} (df : list alignment_row) (m : DataFrame) (lo hi : float) :
  simi_matrix_of df = Ok m ->
  SFleb lo f1_0 = true -> SFleb f1_0 hi = true ->
  (forall r x, r ∈ df -> x = TM1 r \/ x = TM2 r -> isna x = false ->
               SFleb lo x = true /\ SFleb x hi = true) ->
  forall i j, i ∈ index m -> j ∈ index m ->
  exists v, loc m i j = Some v /\ SFleb lo v = true /\ SFleb v hi = true.
Proof.
  intros Hm Hlo Hhi Hrows i j Hi Hj.
  destruct (simi_matrix_of_inv df m Hm) as (_ & _ & Hidx & Hcol & Hloc).
  assert (Hj' : j ∈ columns m) by (rewrite Hcol, <- Hidx; exact Hj).
  exists (entry (small_TM_row <$> df) i j).
  split; [exact (Hloc i j Hi Hj')|].
  destruct (entry_source df i j) as [Hna [-> | (r & Hr & Hv & _)]]; [auto|].
  rewrite Hv in Hna |- *.
  destruct (row_min_one_of _ _ Hna) as [[-> Ha] | [-> Hb]];
    eapply Hrows; eauto.
Qed.

(** The scores of the scenario lie in [0, 1]: so does the entry at (A,C). *)
Lemma simi_matrix_bounded_witness :
  exists m v, simi_matrix_of (pandas := pandas2) scenario_rows = Ok m /\
              loc m "A" "C" = Some v /\
              SFleb f0_0 v = true /\ SFleb v f1_0 = true.
Proof.
  assert (Hm : exists m, simi_matrix_of (pandas := pandas2) scenario_rows = Ok m)
    by (eexists; vm_compute; reflexivity).
  destruct Hm as [m Hm].
  destruct (simi_matrix_of_inv scenario_rows m Hm) as (_ & _ & Hidx & _).
  destruct (simi_matrix_bounded scenario_rows m f0_0 f1_0 Hm) with (i := "A") (j := "C")
    as (v & Hv & Hb).
  - reflexivity.
  - reflexivity.
  - intros r x Hr Hx _. unfold scenario_rows in Hr.
    repeat (apply elem_of_cons in Hr as [->|Hr]);
      try (now apply elem_of_nil in Hr);
      destruct Hx as [-> | ->]; split; reflexivity.
  - apply Hidx. left. vm_compute. left.
  - apply Hidx. right. vm_compute. right. left.
  - exists m, v. auto.
Defined.

(** What lines 93-104 do on a table whose scores are converted. *)
Lemma simi_matrix_of_cases {pandas : Pandas} (df : list alignment_row) :
  match df with
  | [] => simi_matrix_of df = Raise (KeyError "0")
  | _ :: _ =>
      if bool_decide (NoDup (pair_key <$> (small_TM_row <$> df)))
      then exists m, simi_matrix_of df = Ok m
      else simi_matrix_of df
           = Raise (ValueError "Index contains duplicate entries, cannot reshape")
  end.
Proof.
  destruct df as [|r df]; [reflexivity|].
  case_bool_decide as Hnd.
  - apply simi_matrix_of_ok; [discriminate|exact Hnd].
  - unfold simi_matrix_of.
    rewrite small_TM_table_rows by discriminate.
    cbn [mbind result_bind]. unfold pivot.
    rewrite bool_decide_eq_false_2 by exact Hnd. reflexivity.
Qed.

Lemma astype_float64_column_cases {pandas : Pandas} (col : list (option string)) :
  match astype_float64_column col with
  | Ok xs => Forall (fun c => converts c = true) col /\ length xs = length col
  | Raise e => exn_class e = "ValueError" /\ ~ Forall (fun c => converts c = true) col
  end.
Proof.
  induction col as [|c col IH]; cbn [astype_float64_column]; [split; constructor|].
  unfold astype_float64 at 1.
  destruct c as [s|].
  - destruct (str_to_float64 s) as [x|] eqn:Es; cbn [mbind result_bind].
    + destruct (astype_float64_column col) as [xs|e]; cbn [mbind result_bind mret result_ret].
      * destruct IH as [IH1 IH2]. split; [|cbn; now rewrite IH2].
        constructor; [cbn; now rewrite Es|exact IH1].
      * destruct IH as [IH1 IH2]. split; [exact IH1|].
        intros Hall. apply IH2. now apply Forall_cons in Hall as [_ Hall].
    + split; [reflexivity|]. intros Hall. apply Forall_cons in Hall as [Hc _].
      cbn in Hc. rewrite Es in Hc. discriminate.
  - cbn [mbind result_bind].
    destruct (astype_float64_column col) as [xs|e]; cbn [mbind result_bind mret result_ret].
    + destruct IH as [IH1 IH2]. split; [|cbn; now rewrite IH2].
      constructor; [reflexivity|exact IH1].
    + destruct IH as [IH1 IH2]. split; [exact IH1|].
      intros Hall. apply IH2. now apply Forall_cons in Hall as [_ Hall].
Qed.

(** The rows of the converted table name the pairs of the records. *)
Lemma converted_keys (records : list alignment_record) (tm1 tm2 : list float) :
  length tm1 = length records -> length tm2 = length records ->
  pair_key <$> (small_TM_row <$>
    zip_with (fun r tm => AlignmentRow (field_PDBchain1 r) (field_PDBchain2 r) tm.1 tm.2)
             records (zip tm1 tm2))
  = record_key <$> records.
Proof.
  revert tm1 tm2. induction records as [|r records IH]; intros tm1 tm2 H1 H2;
    [reflexivity|].
  destruct tm1 as [|x tm1]; [discriminate|]. destruct tm2 as [|y tm2]; [discriminate|].
  cbn. f_equal. apply IH; cbn in H1, H2; lia.
Qed.

Lemma column_attribute_cases (cols : list string) (name : string) :
  match column_attribute cols name with
  | Ok _ => name ∈ cols
  | Raise e => exn_class e = "AttributeError" /\ name ∉ cols
  end.
Proof. unfold column_attribute. destruct (decide (name ∈ cols)); auto. Qed.

(** X9. From the frame of line 92 to the matrix of line 104, for a file
    whose records all name both chains.  A matrix is built exactly when
    the file has the four columns [PDBchain1], [PDBchain2], [TM1] and
    [TM2] and at least one record, every text of a score converts to a
    number, and no pair of chains (the second without its suffix) occurs
    twice.  Otherwise the lines raise: [AttributeError] only when
    [PDBchain2], [TM1] or [TM2] is lacking (lines 93-95), [KeyError] only
    when there is no record (line 93) or [PDBchain1] is lacking (line 98),
    [ValueError] only when a score does not convert (lines 94-95) or a
    pair occurs twice (line 101); and nothing else. *)
Theorem simi_matrix_outcome {pandas : Pandas} (t : alignment_table) :
  ((exists m, converted t ≫= simi_matrix_of = Ok m) <->
   ("PDBchain1" ∈ alignment_columns t /\ "PDBchain2" ∈ alignment_columns t /\
    "TM1" ∈ alignment_columns t /\ "TM2" ∈ alignment_columns t) /\
   alignment_records t <> [] /\
   Forall (fun c => converts c = true) (field_TM1 <$> alignment_records t) /\
   Forall (fun c => converts c = true) (field_TM2 <$> alignment_records t) /\
   NoDup (record_key <$> alignment_records t)) /\
  (forall e, converted t ≫= simi_matrix_of = Raise e ->
     (exn_class e = "AttributeError" /\
      ("PDBchain2" ∉ alignment_columns t \/ "TM1" ∉ alignment_columns t \/
       "TM2" ∉ alignment_columns t)) \/
     (exn_class e = "KeyError" /\
      (alignment_records t = [] \/ "PDBchain1" ∉ alignment_columns t)) \/
     (exn_class e = "ValueError" /\
      (~ Forall (fun c => converts c = true) (field_TM1 <$> alignment_records t) \/
       ~ Forall (fun c => converts c = true) (field_TM2 <$> alignment_records t) \/
       ~ NoDup (record_key <$> alignment_records t)))).
Proof.
  destruct t as [cols records]. cbn [alignment_columns alignment_records].
  unfold converted. cbn [alignment_columns alignment_records].
  pose proof (column_attribute_cases cols "PDBchain2") as Hc2.
  destruct (column_attribute cols "PDBchain2") as [[]|e2]; cbn [mbind result_bind].
  2:{ destruct Hc2 as [Hcl Hno]. split.
      - split; [intros [m Hm]; discriminate|]. intros ((_ & H2 & _) & _). contradiction.
      - intros e E. injection E as <-. left. auto. }
  destruct records as [|r records].
  { cbn [fmap list_fmap split_expand_0 mbind result_bind]. split.
    - split; [intros [m Hm]; discriminate|]. intros (_ & Hne & _). contradiction.
    - intros e E. injection E as <-. right; left. auto. }
  set (recs := r :: records).
  change (split_expand_0 "." (field_PDBchain2 <$> recs))
    with (Ok (first_field "." <$> (field_PDBchain2 <$> recs))).
  cbn [mbind result_bind].
  pose proof (column_attribute_cases cols "TM1") as Hc3.
  destruct (column_attribute cols "TM1") as [[]|e3]; cbn [mbind result_bind].
  2:{ destruct Hc3 as [Hcl Hno]. split.
      - split; [intros [m Hm]; discriminate|]. intros ((_ & _ & H3 & _) & _). contradiction.
      - intros e E. injection E as <-. left. auto. }
  pose proof (astype_float64_column_cases (field_TM1 <$> recs)) as Ht1.
  destruct (astype_float64_column (field_TM1 <$> recs)) as [tm1|e]; cbn [mbind result_bind].
  2:{ destruct Ht1 as [Hcl Hno]. split.
      - split; [intros [m Hm]; discriminate|]. intros (_ & _ & H & _). contradiction.
      - intros e' E. injection E as <-. right; right. auto. }
  destruct Ht1 as [Hall1 Hlen1].
  pose proof (column_attribute_cases cols "TM2") as Hc4.
  destruct (column_attribute cols "TM2") as [[]|e4]; cbn [mbind result_bind].
  2:{ destruct Hc4 as [Hcl Hno]. split.
      - split; [intros [m Hm]; discriminate|]. intros ((_ & _ & _ & H4) & _). contradiction.
      - intros e E. injection E as <-. left. auto. }
  pose proof (astype_float64_column_cases (field_TM2 <$> recs)) as Ht2.
  destruct (astype_float64_column (field_TM2 <$> recs)) as [tm2|e]; cbn [mbind result_bind].
  2:{ destruct Ht2 as [Hcl Hno]. split.
      - split; [intros [m Hm]; discriminate|]. intros (_ & _ & _ & H & _). contradiction.
      - intros e' E. injection E as <-. right; right. auto. }
  destruct Ht2 as [Hall2 Hlen2].
  unfold column_of_list.
  destruct (decide ("PDBchain1" ∈ cols)) as [Hc1|Hc1]; cbn [mbind result_bind mret result_ret].
  2:{ split.
      - split; [intros [m Hm]; discriminate|]. intros ((H1 & _) & _). contradiction.
      - intros e E. injection E as <-. right; left. auto. }
  rewrite length_fmap in Hlen1, Hlen2.
  pose proof (converted_keys recs tm1 tm2 Hlen1 Hlen2) as Hkeys.
  set (rows := zip_with _ recs (zip tm1 tm2)) in *.
  assert (Hrows : rows <> []).
  { subst rows recs. destruct tm1; [discriminate|]. destruct tm2; discriminate. }
  pose proof (simi_matrix_of_cases rows) as Hcases.
  destruct rows as [|row rows']; [contradiction|].
  rewrite Hkeys in Hcases. case_bool_decide as Hnd.
  - split.
    + split; [|intros _; exact Hcases]. intros _. repeat split; auto; discriminate.
    + intros e E. destruct Hcases as [m Hm]. rewrite Hm in E. discriminate.
  - split.
    + split; [intros [m Hm]; rewrite Hcases in Hm; discriminate|].
      intros (_ & _ & _ & _ & H). contradiction.
    + intros e E. rewrite Hcases in E. injection E as <-. right; right. auto.
Qed.

(** X10. Two rows that name the same pair of chains, the second chain
    taken without its suffix, make lines 93-104 raise [ValueError],
    whatever their scores. *)
Theorem simi_matrix_duplicate_pair {pandas : Pandas} (df : list alignment_row) (p q : nat)
    (r1 r2 : alignment_row) :
  df !! p = Some r1 -> df !! q = Some r2 -> p <> q ->
  PDBchain1 r1 = PDBchain1 r2 ->
  first_field "." (PDBchain2 r1) = first_field "." (PDBchain2 r2) ->
  simi_matrix_of df
  = Raise (ValueError "Index contains duplicate entries, cannot reshape").
Proof.
  intros Hp Hq Hpq H1 H2.
  assert (Hdf : df <> []) by (intros ->; discriminate).
  unfold simi_matrix_of. rewrite small_TM_table_rows by exact Hdf.
  cbn [mbind result_bind]. unfold pivot.
  rewrite bool_decide_eq_false_2; [reflexivity|].
  intros Hnd. apply Hpq.
  apply (NoDup_lookup _ p q (pair_key (small_TM_row r1)) Hnd).
  - rewrite !list_lookup_fmap, Hp. reflexivity.
  - rewrite !list_lookup_fmap, Hq. cbn. unfold pair_key. cbn.
    now rewrite H1, H2.
Qed.

(** The chains B.pdb and B.cif are both B. *)
Lemma simi_matrix_duplicate_pair_witness :
  simi_matrix_of (pandas := pandas2) suffix_rows
  = Raise (ValueError "Index contains duplicate entries, cannot reshape").
Proof.
  apply (simi_matrix_duplicate_pair suffix_rows 0 1
           (AlignmentRow "A" "B.pdb" f0_8 f0_9) (AlignmentRow "A" "B.cif" f0_5 f0_4));
    [reflexivity | reflexivity | discriminate | reflexivity | reflexivity].
Defined.

End SimilarityMore.

(** * Further properties of [read_mapping] *)

Section MappingMore.

(** X11. What [read_mapping] does, file by file.  It returns a table
    exactly when the mapping directory is set and the species' file is
    there with the columns [symbol] and [pid] and at least one row.
    Without a directory it raises [TypeError]; without the file
    [FileNotFoundError]; without the column [symbol] [KeyError] for it
    (line 64); on a file without rows [KeyError] for column 0 of the split
    (line 64); without the column [pid] [KeyError] for it (line 66).  In
    each of these cases the object is left as it was. *)
Theorem read_mapping_outcome (fs : files) (species : string) (st : state) :
  match map_dir (self st) with
  | None => exists msg, read_mapping fs species st = (Raise (TypeError msg), st)
  | Some dir =>
      let fn := path_join dir (species +:+ "_pid_protein_name.csv") in
      match mapping_files fs !! fn with
      | None => read_mapping fs species st = (Raise (FileNotFoundError fn), st)
      | Some (MappingFile cols raw) =>
          if decide ("symbol" ∈ cols) then
            match raw with
            | [] => read_mapping fs species st = (Raise (KeyError "0"), st)
            | _ :: _ =>
                if decide ("pid" ∈ cols) then
                  exists st', read_mapping fs species st
                              = (Ok (mapping_row_of species <$> raw), st')
                else read_mapping fs species st = (Raise (KeyError "pid"), st)
            end
          else read_mapping fs species st = (Raise (KeyError "symbol"), st)
      end
  end.
Proof.
  rewrite read_mapping_run.
  destruct (map_dir (self st)) as [dir|]; [|cbn; eauto].
  cbn zeta. rewrite (load_mapping_cases fs dir species). cbn zeta.
  destruct (mapping_files fs !! path_join dir (species +:+ "_pid_protein_name.csv"))
    as [[cols raw]|]; [|reflexivity].
  destruct (decide ("symbol" ∈ cols)); [|reflexivity].
  destruct raw as [|r raw]; [reflexivity|].
  destruct (decide ("pid" ∈ cols)); [eauto|reflexivity].
Qed.

(** X12. [read_mapping] touches nothing but the cache entry of its
    species: it prints and writes nothing, the other attributes and the
    tables cached for other species stay as they were, and the table it
    returns is the one cached; when it raises, nothing is cached. *)
Theorem read_mapping_frame (fs : files) (species : string) (st st' : state)
    (r : result (list mapping_row)) :
  read_mapping fs species st = (r, st') ->
  trace st' = trace st /\
  self st' = set_pid_mappings (pid_mappings (self st')) (self st) /\
  (forall other, other <> species ->
                 pid_mappings (self st') !! other = pid_mappings (self st) !! other) /\
  match r with
  | Ok tbl => pid_mappings (self st') !! species = Some tbl
  | Raise _ => st' = st
  end.
Proof.
  rewrite read_mapping_run.
  destruct (load_mapping fs (map_dir (self st)) species) as [tbl|e];
    intros E; injection E as <- <-.
  - cbn [self trace set_pid_mappings pid_mappings]. repeat split.
    + intros other Hne. now apply lookup_insert_ne.
    + apply lookup_insert_eq.
  - repeat split. now destruct st as [[]].
Qed.

(** The table of zebrafish is cached, nothing is cached for human. *)
Lemma read_mapping_frame_witness :
  pid_mappings (self (snd (read_mapping zebrafish_files "zebrafish"
                                        (new_object ["zebrafish"])))) !! "human"
  = None.
Proof.
  destruct (read_mapping_frame zebrafish_files "zebrafish"
              (new_object ["zebrafish"])
              (snd (read_mapping zebrafish_files "zebrafish" (new_object ["zebrafish"])))
              (fst (read_mapping zebrafish_files "zebrafish" (new_object ["zebrafish"]))))
    as (_ & _ & Hother & _).
  - now destruct (read_mapping zebrafish_files "zebrafish" (new_object ["zebrafish"])).
  - rewrite (Hother "human") by discriminate. reflexivity.
Defined.

(** X13. Reading the same species again returns the same table and
    changes nothing: the cache entry is replaced by an equal one. *)
Theorem read_mapping_again (fs : files) (species : string) (st st1 : state)
    (tbl : list mapping_row) :
  read_mapping fs species st = (Ok tbl, st1) ->
  read_mapping fs species st1 = (Ok tbl, st1).
Proof.
  rewrite !read_mapping_run.
  destruct (load_mapping fs (map_dir (self st)) species) as [tbl0|e] eqn:E;
    [|discriminate].
  intros H. injection H as <- <-.
  cbn [self trace set_pid_mappings pid_mappings map_dir].
  rewrite E. cbn [self trace set_pid_mappings pid_mappings map_dir total_gene_names
                  species_gene_index species_mapping species_order alignment_fn
                  simi_matrix_fn simi_matrix labels structure_embeddings
                  protein_cluster].
  now rewrite insert_insert_eq.
Qed.

Lemma read_mapping_again_witness :
  exists tbl st1,
    read_mapping zebrafish_files "zebrafish" (new_object ["zebrafish"]) = (Ok tbl, st1) /\
    read_mapping zebrafish_files "zebrafish" st1 = (Ok tbl, st1).
Proof.
  assert (H : exists tbl st1,
             read_mapping zebrafish_files "zebrafish" (new_object ["zebrafish"])
             = (Ok tbl, st1))
    by (eexists; eexists; vm_compute; reflexivity).
  destruct H as (tbl & st1 & H). exists tbl, st1. split; [exact H|].
  exact (read_mapping_again _ _ _ _ _ H).
Defined.

End MappingMore.

(** * Further properties of [get_species_gene_index] *)

Section GeneIndexMore.

Lemma insert_sorted_Permutation (x : string) (l : list string) :
  insert_sorted x l ≡ₚ x :: l.
Proof.
  induction l as [|y l IH]; simpl; [reflexivity|].
  destruct (String.leb x y); [reflexivity|].
  rewrite IH. apply Permutation_swap.
Qed.

Lemma sorted_Permutation (l : list string) : sorted l ≡ₚ l.
Proof.
  unfold sorted. induction l as [|x l IH]; simpl; [reflexivity|].
  now rewrite insert_sorted_Permutation, IH.
Qed.

Lemma ranges_from_lookup (lens : list nat) (n : Z) (p : nat) (a b : Z) :
  0 <= n -> ranges_from n lens !! p = Some (a, b) ->
  n <= a /\ exists l, lens !! p = Some l /\ b = a + Z.of_nat l.
Proof.
  revert n p. induction lens as [|l lens IH]; intros n p Hn H;
    [discriminate|].
  destruct p as [|p]; simpl in H.
  - injection H as <- <-. split; [lia|]. exists l. auto.
  - apply IH in H as [Ha H]; [|lia]. split; [lia|exact H].
Qed.

Lemma ranges_from_ordered (lens : list nat) (n : Z) (p q : nat) (a1 b1 a2 b2 : Z) :
  0 <= n -> (p < q)%nat ->
  ranges_from n lens !! p = Some (a1, b1) ->
  ranges_from n lens !! q = Some (a2, b2) ->
  b1 <= a2.
Proof.
  revert n p q. induction lens as [|l lens IH]; intros n p q Hn Hpq H1 H2;
    [discriminate|].
  destruct q as [|q]; [lia|]. simpl in H2.
  destruct p as [|p]; simpl in H1.
  - injection H1 as <- <-.
    apply ranges_from_lookup in H2 as [H2 _]; lia.
  - apply (IH (n + (n + Z.of_nat l)) p q); auto; lia.
Qed.

Lemma ranges_from_some (lens : list nat) (n : Z) (p : nat) (l : nat) :
  lens !! p = Some l -> exists a b, ranges_from n lens !! p = Some (a, b).
Proof.
  revert n p. induction lens as [|l0 lens IH]; intros n p H; [discriminate|].
  destruct p as [|p]; simpl; [eauto|]. now apply IH.
Qed.

Lemma record_ranges_cons (ix : gmap string (Z * Z)) (s : string) (species : list string)
    (r : Z * Z) (ranges : list (Z * Z)) :
  record_ranges ix (s :: species) (r :: ranges)
  = record_ranges (<[s := r]> ix) species ranges.
Proof. reflexivity. Qed.

Lemma record_ranges_other (species : list string) (ranges : list (Z * Z))
    (ix : gmap string (Z * Z)) (sp : string) :
  sp ∉ species -> record_ranges ix species ranges !! sp = ix !! sp.
Proof.
  revert ranges ix. induction species as [|s species IH]; intros ranges ix Hsp;
    [reflexivity|].
  apply not_elem_of_cons in Hsp as [Hne Hsp].
  destruct ranges as [|r ranges]; [reflexivity|].
  rewrite record_ranges_cons, IH by exact Hsp. now apply lookup_insert_ne.
Qed.

Lemma record_ranges_lookup (species : list string) (ranges : list (Z * Z))
    (ix : gmap string (Z * Z)) (p : nat) (sp : string) (r : Z * Z) :
  NoDup species -> species !! p = Some sp -> ranges !! p = Some r ->
  record_ranges ix species ranges !! sp = Some r.
Proof.
  revert ranges ix p. induction species as [|s species IH];
    intros ranges ix p Hnd Hsp Hr; [discriminate|].
  apply NoDup_cons in Hnd as [Hs Hnd].
  destruct ranges as [|r0 ranges]; [discriminate|].
  rewrite record_ranges_cons. destruct p as [|p]; simpl in Hsp, Hr.
  - injection Hsp as ->. injection Hr as ->.
    rewrite record_ranges_other by exact Hs. apply lookup_insert_eq.
  - now apply (IH ranges _ p).
Qed.

(** The loop, for a bound reader that loads every species. *)
Lemma gene_index_loop_run (g : globals)
    (f : option string -> string -> result (list mapping_row))
    (species : list string) (tbls : list (list mapping_row)) (n : Z) (st : state) :
  g_read_mapping g = Some f ->
  Forall2 (fun sp tbl => f (map_dir (self st)) sp = Ok tbl) species tbls ->
  gene_index_loop g species n st
  = (Ok (),
     State (set_species_gene_index
              (record_ranges (species_gene_index (self st)) species
                             (ranges_from n ((fun tbl : list mapping_row => length tbl) <$> tbls)))
              (set_total_gene_names
                 (total_gene_names (self st)
                  ++ concat ((fun tbl : list mapping_row => gene_name <$> tbl) <$> tbls))
                 (self st)))
           (trace st)).
Proof.
  intros Hg. revert tbls n st.
  induction species as [|sp species IH]; intros tbls n st H.
  - apply Forall2_nil_inv_l in H as ->. cbn. unfold ret.
    rewrite app_nil_r. now destruct st as [[]].
  - apply Forall2_cons_inv_l in H as (tbl & tbls' & Hsp & H & ->).
    cbn [gene_index_loop]. unfold bind at 1. unfold lift at 1.
    rewrite Hg. cbn [global]. unfold bind at 1, get_self at 1.
    unfold bind at 1, lift at 1. rewrite Hsp.
    unfold bind at 1, update at 1. unfold bind at 1, update at 1.
    cbn [self trace].
    rewrite (IH tbls'); [|exact H].
    cbn [self trace set_species_gene_index set_total_gene_names
         species_gene_index total_gene_names map_dir].
    rewrite !fmap_cons, length_fmap. cbn [concat ranges_from].
    rewrite record_ranges_cons, <- app_assoc. reflexivity.
Qed.

Lemma get_species_gene_index_run (g : globals)
    (f : option string -> string -> result (list mapping_row))
    (tbls : list (list mapping_row)) (st : state) :
  g_read_mapping g = Some f ->
  Forall2 (fun sp tbl => f (map_dir (self st)) sp = Ok tbl)
          (sorted (species_order (self st))) tbls ->
  get_species_gene_index g st
  = (Ok (total_gene_names (after_gene_index (self st) (sorted (species_order (self st))) tbls),
         species_gene_index (after_gene_index (self st) (sorted (species_order (self st))) tbls)),
     State (after_gene_index (self st) (sorted (species_order (self st))) tbls)
           (trace st)).
Proof.
  intros Hg H. unfold get_species_gene_index.
  unfold bind at 1, get_self at 1. unfold bind at 1.
  rewrite (gene_index_loop_run g f _ tbls 0 st Hg H). reflexivity.
Qed.

(** The loop, for a bound reader that fails at one species. *)
Lemma gene_index_loop_fails (g : globals)
    (f : option string -> string -> result (list mapping_row))
    (done : list string) (sp : string) (rest : list string)
    (tbls : list (list mapping_row)) (e : exn) (n : Z) (st : state) :
  g_read_mapping g = Some f ->
  Forall2 (fun sp tbl => f (map_dir (self st)) sp = Ok tbl) done tbls ->
  f (map_dir (self st)) sp = Raise e ->
  gene_index_loop g (done ++ sp :: rest) n st
  = (Raise e,
     State (set_species_gene_index
              (record_ranges (species_gene_index (self st)) done
                             (ranges_from n ((fun tbl : list mapping_row => length tbl) <$> tbls)))
              (set_total_gene_names
                 (total_gene_names (self st)
                  ++ concat ((fun tbl : list mapping_row => gene_name <$> tbl) <$> tbls))
                 (self st)))
           (trace st)).
Proof.
  intros Hg. revert tbls n st.
  induction done as [|s done IH]; intros tbls n st H He.
  - apply Forall2_nil_inv_l in H as ->.
    cbn [app gene_index_loop]. unfold bind at 1. unfold lift at 1.
    rewrite Hg. cbn [global]. unfold bind at 1, get_self at 1.
    unfold bind at 1, lift at 1. rewrite He. cbn.
    rewrite app_nil_r. now destruct st as [[]].
  - apply Forall2_cons_inv_l in H as (tbl & tbls' & Hsp & H & ->).
    cbn [app gene_index_loop]. unfold bind at 1. unfold lift at 1.
    rewrite Hg. cbn [global]. unfold bind at 1, get_self at 1.
    unfold bind at 1, lift at 1. rewrite Hsp.
    unfold bind at 1, update at 1. unfold bind at 1, update at 1.
    cbn [self trace].
    rewrite (IH tbls'); [|exact H|exact He].
    cbn [self trace set_species_gene_index set_total_gene_names
         species_gene_index total_gene_names map_dir].
    rewrite !fmap_cons, length_fmap. cbn [concat ranges_from].
    rewrite record_ranges_cons, <- app_assoc. reflexivity.
Qed.

(** X14. With a reader bound to the name [read_mapping] that loads every
    species, [get_species_gene_index] appends to the gene names of the
    object the gene names of the species, species after species in sorted
    order, returns the names and the index it has stored, and prints and
    writes nothing. *)
Theorem gene_index_names (g : globals)
    (f : option string -> string -> result (list mapping_row))
    (tbls : list (list mapping_row)) (st : state) :
  g_read_mapping g = Some f ->
  Forall2 (fun sp tbl => f (map_dir (self st)) sp = Ok tbl)
          (sorted (species_order (self st))) tbls ->
  exists names ix st',
    get_species_gene_index g st = (Ok (names, ix), st') /\
    names = (total_gene_names (self st)
             ++ concat ((fun tbl : list mapping_row => gene_name <$> tbl) <$> tbls))%list /\
    total_gene_names (self st') = names /\
    species_gene_index (self st') = ix /\
    trace st' = trace st.
Proof.
  intros Hg H. do 3 eexists.
  split; [apply (get_species_gene_index_run g f tbls st Hg H)|].
  repeat split.
Qed.

Lemma gene_index_names_witness :
  exists ix st',
    get_species_gene_index (globals_with_reader three_species_files)
                           (new_object ["c"; "a"; "b"])
    = (Ok (["ga"; "gb"; "gc"], ix), st').
Proof.
  destruct (gene_index_names (globals_with_reader three_species_files)
              (load_mapping three_species_files) three_species_tables
              (new_object ["c"; "a"; "b"]))
    as (names & ix & st' & Hrun & -> & _).
  - reflexivity.
  - repeat constructor.
  - exists ix, st'. exact Hrun.
Defined.

(** X15. With such a reader and no species twice in the order, every
    species gets a range as long as its list of genes, starting at 0 or
    later, and the ranges follow each other in sorted species order
    without overlap: a range ends where a later one starts, or before. *)
Theorem gene_index_ranges_ordered (g : globals)
    (f : option string -> string -> result (list mapping_row))
    (tbls : list (list mapping_row)) (st : state) :
  g_read_mapping g = Some f ->
  Forall2 (fun sp tbl => f (map_dir (self st)) sp = Ok tbl)
          (sorted (species_order (self st))) tbls ->
  NoDup (species_order (self st)) ->
  exists names ix st',
    get_species_gene_index g st = (Ok (names, ix), st') /\
    forall p sp1 tbl1,
      sorted (species_order (self st)) !! p = Some sp1 -> tbls !! p = Some tbl1 ->
      exists a1 b1,
        ix !! sp1 = Some (a1, b1) /\ 0 <= a1 /\
        b1 = a1 + Z.of_nat (length tbl1) /\
        forall q sp2 a2 b2,
          (p < q)%nat -> sorted (species_order (self st)) !! q = Some sp2 ->
          ix !! sp2 = Some (a2, b2) -> b1 <= a2.
Proof.
  intros Hg H Hnd. do 3 eexists.
  split; [apply (get_species_gene_index_run g f tbls st Hg H)|].
  assert (Hnd' : NoDup (sorted (species_order (self st))))
    by (now rewrite sorted_Permutation).
  intros p sp1 tbl1 Hp Ht.
  cbn [after_gene_index species_gene_index set_species_gene_index].
  set (lens := (fun tbl : list mapping_row => length tbl) <$> tbls).
  assert (Hl : lens !! p = Some (length tbl1))
    by (unfold lens; now rewrite list_lookup_fmap, Ht).
  destruct (ranges_from_some lens 0 p _ Hl) as (a1 & b1 & Hr).
  exists a1, b1.
  destruct (ranges_from_lookup lens 0 p a1 b1 ltac:(lia) Hr) as (Ha & l & Hl' & Hb).
  rewrite Hl in Hl'. injection Hl' as <-.
  split; [now apply (record_ranges_lookup _ _ _ p)|].
  split; [exact Ha|]. split; [exact Hb|].
  intros q sp2 a2 b2 Hpq Hq Hix.
  assert (Hlen : length (sorted (species_order (self st))) = length lens)
    by (unfold lens; rewrite length_fmap; now apply Forall2_length in H).
  assert (Hq' : (q < length lens)%nat)
    by (rewrite <- Hlen; now apply lookup_lt_Some in Hq).
  destruct (lookup_lt_is_Some_2 lens q Hq') as [l2 Hl2].
  destruct (ranges_from_some lens 0 q _ Hl2) as (a2' & b2' & Hr2).
  rewrite (record_ranges_lookup _ _ _ q sp2 (a2', b2') Hnd' Hq Hr2) in Hix.
  injection Hix as <- <-.
  apply (ranges_from_ordered lens 0 p q a1 b1 a2' b2'); auto. lia.
Qed.

Lemma gene_index_ranges_ordered_witness :
  exists names ix st',
    get_species_gene_index (globals_with_reader three_species_files)
                           (new_object ["c"; "a"; "b"])
    = (Ok (names, ix), st') /\
    exists a b, ix !! "b" = Some (a, b) /\ b = a + 1.
Proof.
  destruct (gene_index_ranges_ordered (globals_with_reader three_species_files)
              (load_mapping three_species_files) three_species_tables
              (new_object ["c"; "a"; "b"]))
    as (names & ix & st' & Hrun & Hranges).
  - reflexivity.
  - repeat constructor.
  - cbn. repeat constructor; intros H;
      repeat (apply elem_of_cons in H as [H|H]; [discriminate|]);
      now apply elem_of_nil in H.
  - exists names, ix, st'. split; [exact Hrun|].
    destruct (Hranges 1%nat "b" [MappingRow "2def" "gb_b" "gb"])
      as (a & b & Hix & _ & Hb & _); [reflexivity|reflexivity|].
    exists a, b. auto.
Defined.



(** X17. When the reader fails at a species, [get_species_gene_index]
    raises what the reader raised and leaves the object half updated: the
    gene names and ranges of the species sorted before it are recorded,
    nothing of it nor of those after it. *)
Theorem gene_index_reader_fails (g : globals)
    (f : option string -> string -> result (list mapping_row))
    (done : list string) (sp : string) (rest : list string)
    (tbls : list (list mapping_row)) (e : exn) (st : state) :
  g_read_mapping g = Some f ->
  sorted (species_order (self st)) = (done ++ sp :: rest)%list ->
  Forall2 (fun sp tbl => f (map_dir (self st)) sp = Ok tbl) done tbls ->
  f (map_dir (self st)) sp = Raise e ->
  get_species_gene_index g st
  = (Raise e, State (after_gene_index (self st) done tbls) (trace st)).
Proof.
  intros Hg Hs H He. unfold get_species_gene_index.
  unfold bind at 1, get_self at 1. unfold bind at 1. rewrite Hs.
  rewrite (gene_index_loop_fails g f done sp rest tbls e 0 st Hg H He).
  reflexivity.
Qed.

Lemma gene_index_reader_fails_witness :
  exists st',
    get_species_gene_index (globals_with_reader three_species_files)
                           (new_object ["zz"; "b"])
    = (Raise (FileNotFoundError "maps/zz_pid_protein_name.csv"), st') /\
    total_gene_names (self st') = ["gb"] /\
    species_gene_index (self st') !! "b" = Some (0, 1).
Proof.
  eexists. split.
  - apply (gene_index_reader_fails (globals_with_reader three_species_files)
             (load_mapping three_species_files) ["b"] "zz" []
             [[MappingRow "2def" "gb_b" "gb"]]);
      [reflexivity | reflexivity | repeat constructor | reflexivity].
  - split; reflexivity.
Defined.

End GeneIndexMore.

(** * Further properties of the other methods and of the script *)

Section MethodsMore.

(** X18. With the module's globals, a run in which [fit] returns one label
    per protein has stored the labels and the cluster frame, protein by
    protein in the matrix's row order, when it raises [NameError]: the
    object is left with [labels] and [protein_cluster] set and nothing
    else changed. *)
Theorem clustering_embedding_stores_labels `{Sklearn} (fs : files) (output_dir : string)
    (n_clusters : Z) (st : state) (m : DataFrame) (c : SpectralClustering.t) :
  simi_matrix (self st) = Some m ->
  SpectralClustering_fit n_clusters (values m) = Ok c ->
  length (index m) = length (SpectralClustering.labels_ c) ->
  clustering_embedding module_globals fs output_dir n_clusters st
  = (Raise (NameError "protein_cluster"),
     State (set_protein_cluster
              (Some (zip (index m) (SpectralClustering.labels_ c)))
              (set_labels (Some (SpectralClustering.labels_ c)) (self st)))
           (trace st)).
Proof.
  intros Hm Hfit Hlen.
  unfold clustering_embedding, bind, get_self, lift, update.
  rewrite Hm. cbn [not_None]. rewrite Hfit. cbn [self trace].
  unfold cluster_frame. rewrite bool_decide_eq_true_2 by exact Hlen.
  reflexivity.
Qed.

Lemma clustering_embedding_stores_labels_witness :
  exists st',
    @clustering_embedding (with_fit fitted_two no_numerics) module_globals
                          no_files "out" 2 matrix_loaded
    = (Raise (NameError "protein_cluster"), st') /\
    labels (self st') = Some [0; 1].
Proof.
  eexists. split.
  - apply (@clustering_embedding_stores_labels (with_fit fitted_two no_numerics)
             no_files "out" 2 matrix_loaded two_proteins fitted_two); reflexivity.
  - reflexivity.
Defined.

(** X19. Had the name [protein_cluster] been bound to a frame, a run in
    which [fit] and [spectral_embedding] succeed and both files can be
    written returns the fitted object and the embedding that
    [spectral_embedding] computes from the fitted object's own affinity
    matrix, with as many components as it has clusters, its solver and
    tolerance, random state 0 and no component dropped; the embedding is
    stored on the object, and the files written are the frame of the
    global name, then the embedding.  Where [protein_cluster.csv] cannot
    be written (the output directory does not exist, say) the run raises
    the error of that attempt, with the labels and the cluster frame
    stored; where only [maps.txt] cannot be written it raises after the
    first file is written, and the embedding is not stored. *)
Theorem clustering_embedding_returns `{Sklearn} (g : globals) (fs : files)
    (output_dir : string) (n_clusters : Z) (st : state) (m : DataFrame)
    (c : SpectralClustering.t) (frame : list (string * Z)) (maps : list (list float)) :
  simi_matrix (self st) = Some m ->
  SpectralClustering_fit n_clusters (values m) = Ok c ->
  length (index m) = length (SpectralClustering.labels_ c) ->
  g_protein_cluster g = Some frame ->
  spectral_embedding (SpectralClustering.affinity_matrix_ c)
                     (SpectralClustering.n_clusters c)
                     (SpectralClustering.eigen_solver c) 0
                     (SpectralClustering.eigen_tol c) false = Ok maps ->
  clustering_embedding g fs output_dir n_clusters st
  = let stored := set_protein_cluster
                    (Some (zip (index m) (SpectralClustering.labels_ c)))
                    (set_labels (Some (SpectralClustering.labels_ c)) (self st)) in
    let csv := File_csv (path_join output_dir "protein_cluster.csv") frame in
    match write_errors fs !! path_join output_dir "protein_cluster.csv" with
    | Some e => (Raise e, State stored (trace st))
    | None =>
        match write_errors fs !! path_join output_dir "maps.txt" with
        | Some e => (Raise e, State stored (trace st ++ [csv]))
        | None =>
            (Ok (c, maps),
             State (set_structure_embeddings (Some maps) stored)
                   (trace st ++ [csv; File_txt (path_join output_dir "maps.txt") maps]))
        end
    end.
Proof.
  intros Hm Hfit Hlen Hg Hemb.
  unfold clustering_embedding, bind, get_self, lift, update, write_file, emit, ret.
  rewrite Hm. cbn [not_None]. rewrite Hfit. cbn [self trace].
  unfold cluster_frame. rewrite bool_decide_eq_true_2 by exact Hlen.
  cbn [self trace]. rewrite Hg. cbn [global self trace].
  destruct (write_errors fs !! path_join output_dir "protein_cluster.csv");
    [reflexivity|].
  cbn [self trace]. rewrite Hemb.
  destruct (write_errors fs !! path_join output_dir "maps.txt"); [reflexivity|].
  cbn [self trace]. rewrite <- app_assoc. reflexivity.
Qed.

(** With every path writable the run returns; without the directory [out]
    it raises the error of the first write. *)
Lemma clustering_embedding_returns_witness :
  (exists st',
     @clustering_embedding (with_embedding [[f1_0; f0_5]; [f0_5; f1_0]]
                                           (with_fit fitted_two no_numerics))
                           (globals_with_cluster [("A", 0); ("B", 1)])
                           no_files "out" 2 matrix_loaded
     = (Ok (fitted_two, [[f1_0; f0_5]; [f0_5; f1_0]]), st') /\
     structure_embeddings (self st') = Some [[f1_0; f0_5]; [f0_5; f1_0]]) /\
  (exists st',
     @clustering_embedding (with_embedding [[f1_0; f0_5]; [f0_5; f1_0]]
                                           (with_fit fitted_two no_numerics))
                           (globals_with_cluster [("A", 0); ("B", 1)])
                           no_output_dir "out" 2 matrix_loaded
     = (Raise (Exn "OSError" "Cannot save file into a non-existent directory: 'out'"),
        st') /\
     structure_embeddings (self st') = None /\ trace st' = []).
Proof.
  split.
  - eexists. split.
    + rewrite (@clustering_embedding_returns
                 (with_embedding [[f1_0; f0_5]; [f0_5; f1_0]]
                                 (with_fit fitted_two no_numerics))
                 (globals_with_cluster [("A", 0); ("B", 1)])
                 no_files "out" 2 matrix_loaded two_proteins fitted_two
                 [("A", 0); ("B", 1)] [[f1_0; f0_5]; [f0_5; f1_0]]) by reflexivity.
      vm_compute. reflexivity.
    + reflexivity.
  - eexists. split.
    + rewrite (@clustering_embedding_returns
                 (with_embedding [[f1_0; f0_5]; [f0_5; f1_0]]
                                 (with_fit fitted_two no_numerics))
                 (globals_with_cluster [("A", 0); ("B", 1)])
                 no_output_dir "out" 2 matrix_loaded two_proteins fitted_two
                 [("A", 0); ("B", 1)] [[f1_0; f0_5]; [f0_5; f1_0]]) by reflexivity.
      vm_compute. reflexivity.
    + split; reflexivity.
Defined.

(** X20. An exception of [fit] surfaces unchanged, under any globals, and
    the object is left as it was: nothing is stored, printed or written. *)
Theorem clustering_embedding_fit_fails `{Sklearn} (g : globals) (fs : files)
    (output_dir : string) (n_clusters : Z) (st : state) (m : DataFrame) (e : exn) :
  simi_matrix (self st) = Some m ->
  SpectralClustering_fit n_clusters (values m) = Raise e ->
  clustering_embedding g fs output_dir n_clusters st = (Raise e, st).
Proof.
  intros Hm Hfit.
  unfold clustering_embedding, bind, get_self, lift.
  rewrite Hm. cbn [not_None]. rewrite Hfit. reflexivity.
Qed.

Lemma clustering_embedding_fit_fails_witness :
  @clustering_embedding no_numerics module_globals no_files "out" 2 matrix_loaded
  = (Raise (Exn "NotImplementedError" "fit"), matrix_loaded).
Proof.
  apply (@clustering_embedding_fit_fails no_numerics module_globals no_files "out" 2
           matrix_loaded two_proteins); reflexivity.
Defined.

(** X21. [evaluate] never changes the object and prints both scores or
    none: what [silhouette_score] raises it raises, else what
    [davies_bouldin_score] raises, in both cases with nothing printed;
    else it prints the silhouette score, then the Davies-Bouldin index,
    and returns [None]. *)
Theorem evaluate_outcome `{Sklearn} (st : state) :
  match silhouette_score (simi_matrix (self st)) (labels (self st)) with
  | Raise e => evaluate st = (Raise e, st)
  | Ok sil_score =>
      match davies_bouldin_score (simi_matrix (self st)) (labels (self st)) with
      | Raise e => evaluate st = (Raise e, st)
      | Ok db_index =>
          evaluate st
          = (Ok (), State (self st)
                          (trace st ++ [Out_score "Silhouette Score: " sil_score;
                                        Out_score "Davies-Bouldin Index: " db_index]))
      end
  end.
Proof.
  unfold evaluate, bind, get_self, lift, emit, ret.
  destruct (silhouette_score _ _) as [s|e]; [|reflexivity].
  destruct (davies_bouldin_score _ _) as [d|e]; [|reflexivity].
  cbn [self trace]. now rewrite <- app_assoc.
Qed.

Lemma sorted_nil_inv (l : list string) : sorted l = [] -> l = [].
Proof.
  intros H. destruct l as [|x l]; [reflexivity|].
  now apply (sorted_nonempty (x :: l)) in H.
Qed.

Lemma parse_input_loop_columns (df : input_table) (cs ps : list string)
    (species : list string) :
  species_column df = Some cs -> path_column df = Some ps ->
  parse_input_loop df species = Ok ().
Proof.
  intros Hc Hp. induction species as [|sp species IH]; [reflexivity|].
  cbn [parse_input_loop]. unfold select_paths. rewrite Hc, Hp. exact IH.
Qed.

(** X22. [parse_input_table] never changes the object and prints and
    writes nothing.  It returns exactly when the file can be read and
    either the species order is empty or the table has both columns
    [species] and [path]; it raises [FileNotFoundError] without the file,
    [AttributeError] without the column [species], else [KeyError] without
    the column [path]. *)
Theorem parse_input_table_outcome (tables : gmap string input_table) (fn : string)
    (st : state) :
  match tables !! fn with
  | None => parse_input_table tables fn st = (Raise (FileNotFoundError fn), st)
  | Some df =>
      match species_order (self st), species_column df, path_column df with
      | [], _, _ => parse_input_table tables fn st = (Ok (), st)
      | _ :: _, None, _ =>
          exists msg, parse_input_table tables fn st
                      = (Raise (Exn "AttributeError" msg), st)
      | _ :: _, Some _, None =>
          parse_input_table tables fn st = (Raise (KeyError "path"), st)
      | _ :: _, Some _, Some _ => parse_input_table tables fn st = (Ok (), st)
      end
  end.
Proof.
  unfold parse_input_table, bind, get_self, lift, read_csv.
  destruct (tables !! fn) as [df|]; [|reflexivity].
  destruct (species_order (self st)) as [|x l] eqn:Ho; [reflexivity|].
  assert (Hs : sorted (x :: l) <> []) by (apply sorted_nonempty; discriminate).
  destruct (sorted (x :: l)) as [|sp rest]; [contradiction|].
  destruct (species_column df) as [cs|] eqn:Hc.
  - destruct (path_column df) as [ps|] eqn:Hp.
    + now rewrite (parse_input_loop_columns df cs ps).
    + cbn [parse_input_loop]. unfold select_paths. rewrite Hc, Hp. reflexivity.
  - cbn [parse_input_loop]. unfold select_paths. rewrite Hc. cbn. eauto.
Qed.

(** [get_simi_matrix] raises and leaves the state as it was. *)
Lemma get_simi_matrix_run {pandas : Pandas} (g : globals) (fs : files) (st : state) :
  exists e, get_simi_matrix g fs st = (Raise e, st).
Proof.
  unfold get_simi_matrix, bind, get_self, lift.
  destruct (read_csv (alignment_files fs) (alignment_fn (self st))) as [tbl|]; [|eauto].
  destruct (converted tbl) as [df|]; [|eauto].
  destruct (simi_matrix_of df); [|eauto].
  destruct (global "species_name" (g_species_name g)) as [s|]; [|eauto].
  destruct (dict_getitem (pid_mappings (self st)) s); [|eauto].
  unfold frame_bool. eauto.
Qed.

(** The loop touches the gene names and the gene index only, whatever the
    reader does. *)
Lemma gene_index_loop_frame (g : globals) (species : list string) (n : Z) (st : state) :
  exists r st',
    gene_index_loop g species n st = (r, st') /\
    trace st' = trace st /\
    self st' = set_species_gene_index (species_gene_index (self st'))
                 (set_total_gene_names (total_gene_names (self st')) (self st)).
Proof.
  revert n st. induction species as [|sp species IH]; intros n st.
  - exists (Ok ()), st. repeat split. now destruct st as [[]].
  - cbn [gene_index_loop]. unfold bind at 1, lift at 1.
    destruct (global "read_mapping" (g_read_mapping g)) as [f|e].
    2:{ exists (Raise e), st. repeat split. now destruct st as [[]]. }
    unfold bind at 1, get_self at 1. unfold bind at 1, lift at 1.
    destruct (f (map_dir (self st)) sp) as [tbl|e].
    2:{ exists (Raise e), st. repeat split. now destruct st as [[]]. }
    unfold bind at 1, update at 1. unfold bind at 1, update at 1.
    cbn [self trace].
    match goal with |- context [gene_index_loop g species ?n' ?st1] =>
      destruct (IH n' st1) as (r & st' & Hrun & Htr & Hself) end.
    exists r, st'. split; [exact Hrun|]. split; [exact Htr|].
    rewrite Hself at 1. reflexivity.
Qed.

Lemma get_species_gene_index_rest (g : globals) (st st' : state)
    (r : result (list string * gmap string (Z * Z))) :
  get_species_gene_index g st = (r, st') ->
  trace st' = trace st /\
  self st' = set_species_gene_index (species_gene_index (self st'))
               (set_total_gene_names (total_gene_names (self st')) (self st)).
Proof.
  unfold get_species_gene_index. unfold bind at 1, get_self at 1. unfold bind at 1.
  destruct (gene_index_loop_frame g (sorted (species_order (self st))) 0 st)
    as (r0 & st0 & Hrun & Htr & Hself).
  rewrite Hrun. destruct r0 as [[]|e]; intros E.
  - unfold bind, get_self, ret in E. injection E as <- <-. auto.
  - injection E as <- <-. auto.
Qed.

(** X23. [get_species_gene_index] touches the gene names and the gene
    index only, whatever is bound to the name [read_mapping] and whether
    it returns or raises: the similarity matrix, the labels, the cluster
    frame, the embedding and the cached tables of the object stay as they
    were. *)
Theorem get_species_gene_index_frame (g : globals) (st st' : state)
    (r : result (list string * gmap string (Z * Z))) :
  get_species_gene_index g st = (r, st') ->
  trace st' = trace st /\
  simi_matrix (self st') = simi_matrix (self st) /\
  labels (self st') = labels (self st) /\
  protein_cluster (self st') = protein_cluster (self st) /\
  structure_embeddings (self st') = structure_embeddings (self st) /\
  pid_mappings (self st') = pid_mappings (self st) /\
  species_order (self st') = species_order (self st) /\
  map_dir (self st') = map_dir (self st).
Proof.
  intros Hrun.
  destruct (get_species_gene_index_rest g st st' r Hrun) as [Htr Hself].
  split; [exact Htr|]. rewrite Hself. cbn. repeat split.
Qed.

Lemma get_species_gene_index_frame_witness :
  simi_matrix (self (snd (get_species_gene_index
                            (globals_with_reader three_species_files)
                            (new_object ["c"; "a"; "b"])))) = None.
Proof.
  destruct (get_species_gene_index_frame (globals_with_reader three_species_files)
              (new_object ["c"; "a"; "b"])
              (snd (get_species_gene_index (globals_with_reader three_species_files)
                                           (new_object ["c"; "a"; "b"])))
              (fst (get_species_gene_index (globals_with_reader three_species_files)
                                           (new_object ["c"; "a"; "b"]))))
    as (_ & Hsimi & _).
  - now destruct (get_species_gene_index _ _).
  - rewrite Hsimi. reflexivity.
Defined.

(** X24. With the module as written, running the file as a script stops
    before it has read a table, constructed the object or called a
    method.  It first loads [saturn_model.py] from the absolute path of
    line 32: where that file is not there it raises [FileNotFoundError]
    (line 28), where executing it raises it raises the same, and where
    the module lacks [SATURNPretrainModel] it raises [AttributeError]
    (line 36).  Past that it raises [NameError]: for [read_mapping] when
    both [-m] and [-s] are given and not empty, for [get_simi_matrix]
    otherwise. *)
Theorem main_stops_early `{Sklearn} {pandas : Pandas} (fs : files) (args : arguments)
    (st : state) :
  main module_globals module_script_globals fs args st
  = (Raise (match python_files fs !! saturn_model_path with
            | None => FileNotFoundError saturn_model_path
            | Some (Raise e) => e
            | Some (Ok names) =>
                if decide ("SATURNPretrainModel" ∈ names)
                then NameError (if truthy (mapping args) && truthy (species args)
                                then "read_mapping" else "get_simi_matrix")
                else AttributeError
                       "module 'saturn_model' has no attribute 'SATURNPretrainModel'"
            end), st).
Proof.
  unfold main. unfold bind at 1, lift at 1. unfold module_level, get_module.
  destruct (python_files fs !! saturn_model_path) as [[names|e]|]; try reflexivity.
  cbn [mbind result_bind]. unfold module_attribute.
  destruct (decide ("SATURNPretrainModel" ∈ names)); [|reflexivity].
  unfold bind, lift, script_mapping.
  destruct (mapping args) as [dir|], (species args) as [sp|]; cbn [truthy andb];
    try reflexivity.
  - destruct (negb (bool_decide (dir = "")) && negb (bool_decide (sp = "")));
      reflexivity.
  - destruct (negb (bool_decide (dir = ""))); reflexivity.
Qed.

(** X25. Whatever is bound to the global names the script and the methods
    read, the script does not run to its end and prints and writes
    nothing of its own: it raises, at the latest in [pse.get_simi_matrix()]
    at line 196, and if it has constructed [pse] at all, the object is
    left without a similarity matrix, labels, cluster frame or embedding. *)
Theorem main_never_completes `{Sklearn} {pandas : Pandas} (g : globals)
    (sg : script_globals) (fs : files) (args : arguments) (st : state) :
  exists e st',
    main g sg fs args st = (Raise e, st') /\
    trace st' = trace st /\
    (self st' = self st \/
     (simi_matrix (self st') = None /\ labels (self st') = None /\
      protein_cluster (self st') = None /\
      structure_embeddings (self st') = None)).
Proof.
  unfold main. unfold bind at 1, lift at 1.
  destruct (module_level fs) as [[]|e]; [|exists e, st; auto].
  unfold bind at 1, lift at 1.
  destruct (script_mapping g args) as [g'|e]; [|exists e, st; auto].
  unfold bind at 1, lift at 1.
  destruct (global "get_simi_matrix" (s_get_simi_matrix sg)) as [f1|e];
    [|exists e, st; auto].
  unfold bind at 1, lift at 1.
  destruct (f1 (alignment args)) as [m|e]; [|exists e, st; auto].
  unfold bind at 1, lift at 1.
  destruct (global "clustering_embedding" (s_clustering_embedding sg)) as [f2|e];
    [|exists e, st; auto].
  unfold bind at 1, lift at 1.
  destruct (f2 m (output args)) as [cm|e]; [|exists e, st; auto].
  unfold bind at 1, lift at 1.
  destruct (global "evaluate" (s_evaluate sg)) as [f3|e]; [|exists e, st; auto].
  unfold bind at 1, lift at 1.
  destruct (f3 (snd cm) (SpectralClustering.labels_ (fst cm))) as [[]|e];
    [|exists e, st; auto].
  unfold bind at 1, update at 1. cbn [self trace].
  set (st0 := State script_object (trace st)).
  unfold bind at 1.
  destruct (get_species_gene_index g' st0) as [r st1] eqn:Hgi.
  destruct (get_species_gene_index_rest g' st0 st1 r Hgi) as [Htr Hself].
  assert (Hnone : simi_matrix (self st1) = None /\ labels (self st1) = None /\
                  protein_cluster (self st1) = None /\
                  structure_embeddings (self st1) = None)
    by (rewrite Hself; cbn; auto).
  destruct r as [ni|e].
  - unfold bind at 1.
    destruct (get_simi_matrix_run g' fs st1) as [e He]. rewrite He.
    exists e, st1. auto.
  - exists e, st1. auto.
Qed.

(** Recording the same ranges again changes nothing. *)
Lemma record_ranges_again (species : list string) (ranges : list (Z * Z))
    (ix : gmap string (Z * Z)) :
  NoDup species -> length species = length ranges ->
  record_ranges (record_ranges ix species ranges) species ranges
  = record_ranges ix species ranges.
Proof.
  intros Hnd Hlen. apply map_eq. intros k.
  destruct (decide (k ∈ species)) as [Hk|Hk].
  - apply list_elem_of_lookup in Hk as [p Hp].
    assert (Hr : is_Some (ranges !! p))
      by (apply lookup_lt_is_Some; rewrite <- Hlen; now apply lookup_lt_Some in Hp).
    destruct Hr as [r Hr].
    now rewrite !(record_ranges_lookup species ranges _ p k r Hnd Hp Hr).
  - now rewrite !record_ranges_other by exact Hk.
Qed.

(** X26. Calling [get_species_gene_index] a second time appends the gene
    names of all species once more, while the ranges are computed from
    offset 0 again and stay what they were: after two calls the name list
    is twice as long as the index says. *)
Theorem gene_index_twice (g : globals)
    (f : option string -> string -> result (list mapping_row))
    (tbls : list (list mapping_row)) (st : state) :
  g_read_mapping g = Some f ->
  Forall2 (fun sp tbl => f (map_dir (self st)) sp = Ok tbl)
          (sorted (species_order (self st))) tbls ->
  NoDup (species_order (self st)) ->
  exists names1 ix1 st1 names2 st2,
    get_species_gene_index g st = (Ok (names1, ix1), st1) /\
    get_species_gene_index g st1 = (Ok (names2, ix1), st2) /\
    names2 = (names1
              ++ concat ((fun tbl : list mapping_row => gene_name <$> tbl) <$> tbls))%list.
Proof.
  intros Hg H Hnd.
  pose proof (get_species_gene_index_run g f tbls st Hg H) as H1.
  set (S := sorted (species_order (self st))) in *.
  set (st1 := State (after_gene_index (self st) S tbls) (trace st)) in *.
  assert (H' : Forall2 (fun sp tbl => f (map_dir (self st1)) sp = Ok tbl)
                       (sorted (species_order (self st1))) tbls) by exact H.
  pose proof (get_species_gene_index_run g f tbls st1 Hg H') as H2.
  change (sorted (species_order (self st1))) with S in H2.
  assert (Hix : species_gene_index (after_gene_index (self st1) S tbls)
                = species_gene_index (after_gene_index (self st) S tbls)).
  { cbn [after_gene_index self species_gene_index set_species_gene_index
         set_total_gene_names total_gene_names st1].
    apply record_ranges_again.
    - unfold S. now rewrite sorted_Permutation.
    - apply Forall2_length in H. rewrite H. clear.
      generalize 0. induction tbls as [|t tbls IH]; intros n; [reflexivity|].
      cbn. now rewrite <- (IH (n + (n + Z.of_nat (length t)))). }
  rewrite Hix in H2.
  do 5 eexists. split; [exact H1|]. split; [exact H2|]. reflexivity.
Qed.

Lemma gene_index_twice_witness :
  exists names1 ix1 st1 names2 st2,
    get_species_gene_index (globals_with_reader three_species_files)
                           (new_object ["c"; "a"; "b"]) = (Ok (names1, ix1), st1) /\
    get_species_gene_index (globals_with_reader three_species_files) st1
    = (Ok (names2, ix1), st2) /\
    names2 = (names1 ++ ["ga"; "gb"; "gc"])%list.
Proof.
  apply (gene_index_twice (globals_with_reader three_species_files)
           (load_mapping three_species_files) three_species_tables
           (new_object ["c"; "a"; "b"])).
  - reflexivity.
  - repeat constructor.
  - cbn. repeat constructor; intros H;
      repeat (apply elem_of_cons in H as [H|H]; [discriminate|]);
      now apply elem_of_nil in H.
Defined.

End MethodsMore.
